(** * Spreadsheet agent: record building, aggregate analysis, report composition

    Shallow embedding of [content/OpenAISDK/7.0-spreadsheet-agent.py].

    Modelling conventions.
    - A Python [str] is a [string]; each [ascii] stands for one code point
      below 256, so the character classes of [str.strip] and [str.isdigit]
      are the ones Python has on that range.
    - A Python [dict] is an association list with unique keys kept in
      insertion order ([PyDict]); assigning to a key that is present
      replaces its value in place.
    - A Python [float] is an IEEE-754 binary64 value, [spec_float] with the
      operations of the Standard Library's [SpecFloat] at precision 53.
    - A tool returns [json.dumps] of a document and its caller reads it
      back with [json.loads]; for the documents built here that round trip
      is the identity, so a response is modelled as its document ([json]).
    - Exceptions are the [Raise] case of [result]; the remote spreadsheet
      service, the clock and [str] of an exception are parameters. *)

From Stdlib Require Import Floats.SpecFloat.
From Stdlib Require Import Strings.Ascii Strings.String Numbers.DecimalString.
From stdpp Require Import base tactics option list sets strings sorting.

Local Open Scope string_scope.
Local Open Scope list_scope.
Local Open Scope nat_scope.

(** ** Python strings *)

Module PyStr.

Definition code (c : ascii) : nat := nat_of_ascii c.

(** [str.isspace] on one character: U+0009-000D, U+001C-0020, U+0085,
    U+00A0. *)
Definition is_space (c : ascii) : bool :=
  let n := code c in
  ((9 <=? n) && (n <=? 13)) || ((28 <=? n) && (n <=? 32))
  || (n =? 133) || (n =? 160).

(** [str.isdigit] on one character: 0-9 and the superscripts U+00B2,
    U+00B3, U+00B9. *)
Definition is_digit (c : ascii) : bool :=
  let n := code c in
  ((48 <=? n) && (n <=? 57)) || (n =? 178) || (n =? 179) || (n =? 185).

(** The ASCII decimal digits, the only digits [float] reads here. *)
Definition is_ascii_digit (c : ascii) : bool :=
  let n := code c in (48 <=? n) && (n <=? 57).

Definition is_empty (s : string) : bool :=
  match s with EmptyString => true | String _ _ => false end.

(** Truth value of a string: non-empty. *)
Definition truthy (s : string) : bool := negb (is_empty s).

Fixpoint lstrip (s : string) : string :=
  match s with
  | EmptyString => EmptyString
  | String c s' => if is_space c then lstrip s' else s
  end.

Fixpoint rstrip (s : string) : string :=
  match s with
  | EmptyString => EmptyString
  | String c s' =>
      let t := rstrip s' in
      if is_space c && is_empty t then EmptyString else String c t
  end.

(** [s.strip()] *)
Definition strip (s : string) : string := rstrip (lstrip s).

Fixpoint all_chars (p : ascii -> bool) (s : string) : bool :=
  match s with
  | EmptyString => true
  | String c s' => p c && all_chars p s'
  end.

(** [s.isdigit()]: at least one character, all of them digits. *)
Definition isdigit (s : string) : bool := truthy s && all_chars is_digit s.

(** [s.replace(c, '')] for a one-character [c]. *)
Fixpoint remove_char (c : ascii) (s : string) : string :=
  match s with
  | EmptyString => EmptyString
  | String a s' =>
      if Ascii.eqb a c then remove_char c s' else String a (remove_char c s')
  end.

(** [str(n)] for a non-negative integer. *)
Definition of_nat (n : nat) : string := NilZero.string_of_uint (Nat.to_uint n).

(** [str(z)] for an integer. *)
Definition of_Z (z : Z) : string := NilZero.string_of_int (Z.to_int z).

End PyStr.

(** ** Python dictionaries, insertion ordered *)

Module PyDict.

Abbreviation t V := (list (string * V)) (only parsing).

Section Ops.
Context {V : Type}.

(** [d.get(k)] *)
Fixpoint get (k : string) (d : t V) : option V :=
  match d with
  | [] => None
  | (k', v) :: d' => if String.eqb k' k then Some v else get k d'
  end.

(** [k in d] *)
Definition mem (k : string) (d : t V) : bool :=
  match get k d with Some _ => true | None => false end.

(** [d[k] = v]: a present key keeps its position, a new one goes last. *)
Fixpoint set (k : string) (v : V) (d : t V) : t V :=
  match d with
  | [] => [(k, v)]
  | (k', v') :: d' =>
      if String.eqb k' k then (k', v) :: d' else (k', v') :: set k v d'
  end.

Definition keys (d : t V) : list string := map fst d.
Definition values (d : t V) : list V := map snd d.
Definition items (d : t V) : list (string * V) := d.
End Ops.

End PyDict.

(** [not l] for a list *)
Definition is_nil {A} (l : list A) : bool :=
  match l with [] => true | _ :: _ => false end.

(** ** Exceptions *)

Inductive exn : Type :=
| RemoteError (msg : string)
| KeyError (key : string)
| ValueError (text : string)
| TypeError (what : string).

Inductive result (A : Type) : Type :=
| Ok (a : A)
| Raise (e : exn).
Arguments Ok {A} a.
Arguments Raise {A} e.

#[export] Instance result_ret : MRet result := fun A a => Ok a.
#[export] Instance result_bind : MBind result := fun A B k r =>
  match r with Ok a => k a | Raise e => Raise e end.

(** [try: ... except: handler] around a computation. *)
Definition try_except {A} (r : result A) (handler : exn -> A) : A :=
  match r with Ok a => a | Raise e => handler e end.

(** ** The record-building step of [read_sheet_data] (lines 108-117) *)

Abbreviation grid := (list (list string)) (only parsing).
Abbreviation Record := (list (string * string)) (only parsing).

(** [enumerate(l, start)] *)
Fixpoint enumerate {A} (start : nat) (l : list A) : list (nat * A) :=
  match l with
  | [] => []
  | x :: l' => (start, x) :: enumerate (S start) l'
  end.

(** [row[i] if i < len(row) else ""] *)
Definition cell (row : list string) (i : nat) : string :=
  if i <? length row then default "" (row !! i) else "".

(** The inner loop: [row_dict = {}; for i, header in enumerate(headers):
    row_dict[header] = ...]. *)
Definition row_dict (headers row : list string) : Record :=
  foldl (fun d ih => PyDict.set (snd ih) (cell row (fst ih)) d)
        [] (enumerate 0 headers).

(** The outer loop: one [row_dict] per data row, appended in order. *)
Definition build_data (headers : list string) (data_rows : grid) : list Record :=
  map (row_dict headers) data_rows.

(** [headers = values[0]; data_rows = values[1:]] under [len(values) > 1];
    [None] when the grid has fewer than two rows. *)
Definition build_records (values : grid) : option (list string * list Record) :=
  if 1 <? length values then
    match values with
    | headers :: data_rows => Some (headers, build_data headers data_rows)
    | [] => None
    end
  else None.

(** ** Python floats *)

Module PyFloat.

Definition prec : Z := 53.
Definition emax : Z := 1024.

Definition t : Type := spec_float.

Definition zero : t := S754_zero false.
Definition add : t -> t -> t := SFadd prec emax.
Definition div : t -> t -> t := SFdiv prec emax.
Definition ltb : t -> t -> bool := SFltb.

(** [float(z)] for an integer, correctly rounded. *)
Definition of_Z (z : Z) : t := binary_normalize prec emax z 0 false.
Definition of_nat (n : nat) : t := of_Z (Z.of_nat n).

(** The binary64 value nearest to [(-1)^neg * m / 10^k]. *)
Definition of_decimal (neg : bool) (m : Z) (k : nat) : t :=
  match m with
  | Zpos p => div (S754_finite neg p 0)
                  (S754_finite false (Z.to_pos (10 ^ Z.of_nat k)) 0)
  | _ => S754_zero neg
  end.

Definition digit_value (c : ascii) : Z := Z.of_nat (PyStr.code c - 48).

(** Value of a run of ASCII digits, most significant first. *)
Fixpoint digits_value (acc : Z) (s : string) : Z :=
  match s with
  | EmptyString => acc
  | String c s' => digits_value (10 * acc + digit_value c)%Z s'
  end.

(** Longest prefix of ASCII digits, and what follows it. *)
Fixpoint span_digits (s : string) : string * string :=
  match s with
  | EmptyString => (EmptyString, EmptyString)
  | String c s' =>
      if PyStr.is_ascii_digit c
      then let '(ds, rest) := span_digits s' in (String c ds, rest)
      else (EmptyString, s)
  end.

(** [float(s)] on the strings that reach it at line 313: the filter of
    that line lets through only strings made of digit characters, '.'
    and '-'.  Of those, [float] accepts an optional leading '-' followed
    by ASCII digits with at most one '.', with a digit on at least one
    side of it, and raises [ValueError] on the rest. *)
Definition parse (s : string) : result t :=
  let '(neg, body) :=
    match s with
    | String "-"%char r => (true, r)
    | _ => (false, s)
    end in
  let '(ip, rest) := span_digits body in
  match rest with
  | EmptyString =>
      if PyStr.is_empty ip then Raise (ValueError s)
      else Ok (of_decimal neg (digits_value 0 ip) 0)
  | String "."%char fp =>
      if PyStr.all_chars PyStr.is_ascii_digit fp
         && negb (PyStr.is_empty ip && PyStr.is_empty fp)
      then Ok (of_decimal neg (digits_value (digits_value 0 ip) fp)
                          (String.length fp))
      else Raise (ValueError s)
  | _ => Raise (ValueError s)
  end.

(** [sum(values)]: the items added left to right, starting from 0, each
    addition rounded to the nearest float. *)
Definition sum (values : list t) : t := foldl add zero values.

(** [min(values)]: the first item that no later item is below. *)
Definition min (values : list t) : result t :=
  match values with
  | [] => Raise (ValueError "min() arg is an empty sequence")
  | v :: rest => Ok (foldl (fun m x => if ltb x m then x else m) v rest)
  end.

(** [max(values)]: the first item that no later item is above. *)
Definition max (values : list t) : result t :=
  match values with
  | [] => Raise (ValueError "max() arg is an empty sequence")
  | v :: rest => Ok (foldl (fun m x => if ltb m x then x else m) v rest)
  end.

End PyFloat.

(** ** JSON documents *)

#[local] Unset Elimination Schemes.
Inductive json : Type :=
| JNull
| JBool (b : bool)
| JInt (n : Z)
| JFloat (f : PyFloat.t)
| JStr (s : string)
| JList (l : list json)
| JDict (d : list (string * json)).
#[local] Set Elimination Schemes.

Module Json.

Definition of_nat (n : nat) : json := JInt (Z.of_nat n).
Definition strings (l : list string) : json := JList (map JStr l).
Definition rows (g : grid) : json := JList (map strings g).
Definition record (r : Record) : json :=
  JDict (map (fun kv => (fst kv, JStr (snd kv))) r).
Definition records (data : list Record) : json := JList (map record data).

(** What [json.loads] hands back, read at the type the code uses it at. *)
Definition as_dict (j : json) : result (PyDict.t json) :=
  match j with JDict d => Ok d | _ => Raise (TypeError "dict") end.
Definition as_list (j : json) : result (list json) :=
  match j with JList l => Ok l | _ => Raise (TypeError "list") end.
Definition as_str (j : json) : result string :=
  match j with JStr s => Ok s | _ => Raise (TypeError "str") end.
Definition as_int (j : json) : result Z :=
  match j with JInt n => Ok n | _ => Raise (TypeError "int") end.

Definition as_strings (j : json) : result (list string) :=
  l ← as_list j; mapM as_str l.
Definition as_record (j : json) : result Record :=
  d ← as_dict j; mapM (fun kv => s ← as_str (snd kv); mret (fst kv, s)) d.
Definition as_records (j : json) : result (list Record) :=
  l ← as_list j; mapM as_record l.

(** [k in j] *)
Definition contains (k : string) (j : json) : result bool :=
  d ← as_dict j; mret (PyDict.mem k d).

(** [j[k]] *)
Definition subscript (k : string) (j : json) : result json :=
  d ← as_dict j;
  match PyDict.get k d with
  | Some v => Ok v
  | None => Raise (KeyError k)
  end.

(** [j.get(k)] followed by a truth test. *)
Definition get_truthy (k : string) (j : json) : result bool :=
  d ← as_dict j;
  mret match PyDict.get k d with
       | Some (JBool b) => b
       | Some JNull | None => false
       | Some (JInt n) => negb (Z.eqb n 0)
       | Some (JFloat f) => negb (SFeqb f PyFloat.zero)
       | Some (JStr s) => PyStr.truthy s
       | Some (JList l) => negb (is_nil l)
       | Some (JDict d) => negb (is_nil d)
       end.

Definition error (msg : string) : json := JDict [("error", JStr msg)].

End Json.

(** ** The aggregate computations of [analyze_sheet_data] (lines 291-346) *)

(** [row[col]] *)
Definition getitem (col : string) (row : Record) : result string :=
  match PyDict.get col row with
  | Some v => Ok v
  | None => Raise (KeyError col)
  end.

(** [for row in data for value in row.values()] *)
Definition all_values (data : list Record) : list string :=
  concat (map PyDict.values data).

(** [str(value).strip()] as a condition. *)
Definition non_blank (value : string) : bool := PyStr.truthy (PyStr.strip value).

(** Line 304. *)
Definition non_empty_cells (data : list Record) : nat :=
  length (filter (fun v => non_blank v = true) (all_values data)).

(** Line 330. *)
Definition empty_cells (data : list Record) : nat :=
  length (filter (fun v => negb (non_blank v) = true) (all_values data)).

(** Line 305: [data[:3] if len(data) > 3 else data]. *)
Definition sample_data (data : list Record) : list Record :=
  if 3 <? length data then take 3 data else data.

(** Line 313, the condition:
    [str(row[col]).replace('.', '').replace('-', '').isdigit()]. *)
Definition eligible (value : string) : bool :=
  PyStr.isdigit (PyStr.remove_char "-" (PyStr.remove_char "." value)).

(** Line 313, the comprehension
    [[float(row[col]) for row in data if eligible(row[col])]]. *)
Fixpoint column_floats (col : string) (data : list Record)
  : result (list PyFloat.t) :=
  match data with
  | [] => Ok []
  | row :: rest =>
      v ← getitem col row;
      if eligible v
      then x ← PyFloat.parse v; xs ← column_floats col rest; mret (x :: xs)
      else column_floats col rest
  end.

Record column_stats : Type := {
  count : nat;
  mean : PyFloat.t;
  min : PyFloat.t;
  max : PyFloat.t
}.

(** Lines 313-320, the body of [try] for one column: the entry to store,
    none when [values] is empty, or the exception raised on the way. *)
Definition column_statistics (col : string) (data : list Record)
  : result (option column_stats) :=
  values ← column_floats col data;
  if is_nil values then mret None
  else
    lo ← PyFloat.min values;
    hi ← PyFloat.max values;
    mret (Some {| count := length values;
                  mean := PyFloat.div (PyFloat.sum values)
                                      (PyFloat.of_nat (length values));
                  min := lo;
                  max := hi |}).

(** Lines 310-322: [numeric_analysis[col] = {...}] when there is an entry;
    [except: continue] leaves the dictionary as it was. *)
Definition numeric_statistics (headers : list string) (data : list Record)
  : PyDict.t column_stats :=
  foldl (fun numeric_analysis col =>
           match column_statistics col data with
           | Ok (Some entry) => PyDict.set col entry numeric_analysis
           | Ok None => numeric_analysis
           | Raise _ => numeric_analysis
           end)
        [] headers.

(** Line 337:
    [[str(row[col]).strip() for row in data if str(row[col]).strip()]]. *)
Fixpoint column_values (col : string) (data : list Record)
  : result (list string) :=
  match data with
  | [] => Ok []
  | row :: rest =>
      v ← getitem col row;
      vs ← column_values col rest;
      mret (if non_blank v then PyStr.strip v :: vs else vs)
  end.

(** Lines 339-341: [value_counts[value] = value_counts.get(value, 0) + 1]. *)
Definition value_counts (values : list string) : PyDict.t nat :=
  foldl (fun counts value =>
           PyDict.set value (default 0 (PyDict.get value counts) + 1) counts)
        [] values.

(** [sorted(l, key=key, reverse=True)]: a stable sort, larger keys first,
    items with equal keys in the order they had in [l]. *)
Section Sorted.
Context {A : Type} (key : A -> nat).

Fixpoint insert_desc (x : A) (l : list A) : list A :=
  match l with
  | [] => [x]
  | y :: l' => if key x <? key y then y :: insert_desc x l' else x :: l
  end.

Definition sorted_desc (l : list A) : list A := foldr insert_desc [] l.
End Sorted.

(** Line 343. *)
Definition top3 (values : list string) : list (string * nat) :=
  take 3 (sorted_desc snd (PyDict.items (value_counts values))).

(** Lines 336-344. *)
Fixpoint most_common_values (headers : list string) (data : list Record)
    (acc : PyDict.t (list (string * nat)))
  : result (PyDict.t (list (string * nat))) :=
  match headers with
  | [] => Ok acc
  | col :: rest =>
      values ← column_values col data;
      most_common_values rest data
        (if is_nil values then acc else PyDict.set col (top3 values) acc)
  end.

Module Encode.

Definition stats (s : column_stats) : json :=
  JDict [("count", Json.of_nat (count s)); ("mean", JFloat (mean s));
         ("min", JFloat (min s)); ("max", JFloat (max s))].

Definition pair (vc : string * nat) : json :=
  JList [JStr (fst vc); Json.of_nat (snd vc)].

Definition dict {V} (f : V -> json) (d : PyDict.t V) : json :=
  JDict (map (fun kv => (fst kv, f (snd kv))) d).

End Encode.

(** Lines 291-346: the result document for structured input.  The data
    frame of line 289 is built and never read; it is left out. *)
Definition analyze (headers : list string) (data : list Record)
    (analysis_type range : string) : result json :=
  let analysis_result : PyDict.t json :=
    [("analysis_type", JStr analysis_type);
     ("range", JStr range);
     ("total_rows", Json.of_nat (length data));
     ("total_columns", Json.of_nat (length headers));
     ("columns", Json.strings headers)] in
  if String.eqb analysis_type "summary" then
    mret (JDict (PyDict.set "summary"
      (JDict [("row_count", Json.of_nat (length data));
              ("column_count", Json.of_nat (length headers));
              ("non_empty_cells", Json.of_nat (non_empty_cells data));
              ("sample_data", Json.records (sample_data data))])
      analysis_result))
  else if String.eqb analysis_type "statistics" then
    mret (JDict (PyDict.set "numeric_statistics"
      (Encode.dict Encode.stats (numeric_statistics headers data))
      analysis_result))
  else if String.eqb analysis_type "trends" then
    let empty := empty_cells data in
    most_common ← most_common_values headers data [];
    mret (JDict (PyDict.set "trends"
      (JDict [("most_common_values",
               Encode.dict (fun l => JList (map Encode.pair l)) most_common);
              ("data_quality",
               JDict [("empty_cells", Json.of_nat empty);
                      ("total_cells",
                       Json.of_nat (length data * length headers))])])
      analysis_result))
  else mret (JDict analysis_result).

(** ** Report composition of [create_summary_report] (lines 374-408) *)

(** Lines 388-389: [[f"{i}.", col]] for [i, col] in
    [enumerate(columns, 1)]. *)
Definition column_rows (columns : list string) : grid :=
  map (fun ic => [PyStr.of_nat (fst ic) +:+ "."; snd ic]) (enumerate 1 columns).

(** Line 404: [[str(row_data.get(col, "")) for col in headers]]. *)
Definition sample_row (headers : list string) (row_data : Record) : list string :=
  map (fun col => default "" (PyDict.get col row_data)) headers.

(** Lines 397-405. *)
Definition sample_section (headers : list string) (sample : list Record) : grid :=
  if is_nil sample then [] else headers :: map (sample_row headers) sample.

(** Lines 374-405, from the analysis document read back at line 368. *)
Definition compose_report (report_title timestamp range : string)
    (analysis_data : json) : result grid :=
  summary ← Json.subscript "summary" analysis_data;
  row_count ← Json.subscript "row_count" summary ≫= Json.as_int;
  column_count ← Json.subscript "column_count" summary ≫= Json.as_int;
  non_empty ← Json.subscript "non_empty_cells" summary ≫= Json.as_int;
  columns ← Json.subscript "columns" analysis_data ≫= Json.as_strings;
  sample ← Json.subscript "sample_data" summary ≫= Json.as_records;
  mret ([ [report_title];
          ["Generated on:"; timestamp];
          ["Source Range:"; range];
          [""];
          ["Summary Statistics:"];
          ["Total Rows:"; PyStr.of_Z row_count];
          ["Total Columns:"; PyStr.of_Z column_count];
          ["Non-empty Cells:"; PyStr.of_Z non_empty];
          [""];
          ["Column Names:"] ]
        ++ column_rows columns
        ++ [ [""]; ["Sample Data (first 3 rows):"] ]
        ++ sample_section columns sample).

(** Line 408. *)
Definition report_range (report_data : grid) : string :=
  "H1:K" +:+ PyStr.of_nat (length report_data).

(** ** The tools *)

(** The session object: which spreadsheet and sheet were touched last. *)
Record SheetsSession : Type := {
  current_spreadsheet_id : option string;
  current_sheet_name : option string
}.

(** [sheet_name or "Sheet1"] *)
Definition set_active_sheet (spreadsheet_id sheet_name : string)
    (s : SheetsSession) : SheetsSession :=
  {| current_spreadsheet_id := Some spreadsheet_id;
     current_sheet_name :=
       Some (if PyStr.truthy sheet_name then sheet_name else "Sheet1") |}.

(** Replies of the remote service, each field present or absent. *)
Record update_reply : Type := {
  updatedCells : option Z;
  updatedRows : option Z;
  updatedColumns : option Z
}.

Record append_updates : Type := {
  updatedRange : option string;
  appendedRows : option Z;
  appendedCells : option Z
}.

Record clear_reply : Type := { clearedRange : option string }.

Section Tools.

(** [str(e)] *)
Variable str_exn : exn -> string.

(** [values().get(spreadsheetId, range).execute().get('values', [])] *)
Variable values_get : string -> string -> result grid.
(** [values().update(...).execute()] *)
Variable values_update : string -> string -> grid -> result update_reply.
(** [values().append(...).execute().get('updates')] *)
Variable values_append :
  string -> string -> grid -> result (option append_updates).
(** [values().clear(...).execute()] *)
Variable values_clear : string -> string -> result clear_reply.
(** [pd.Timestamp.now().strftime("%Y-%m-%d %H:%M:%S")] *)
Variable now : string.

(** [f"{sheet_name}!{range_name}" if sheet_name else range_name] *)
Definition full_range (sheet_name range_name : string) : string :=
  if PyStr.truthy sheet_name then sheet_name +:+ "!" +:+ range_name
  else range_name.

Definition read_sheet_data (spreadsheet_id range_name sheet_name : string)
    (s : SheetsSession) : json * SheetsSession :=
  let s := set_active_sheet spreadsheet_id sheet_name s in
  let full_range := full_range sheet_name range_name in
  (try_except
     (values ← values_get spreadsheet_id full_range;
      mret
        (if is_nil values then
           JDict [("message", JStr "No data found in the specified range")]
         else
           match build_records values with
           | Some (headers, data) =>
               JDict [("range", JStr full_range);
                      ("headers", Json.strings headers);
                      ("data", Json.records data);
                      ("row_count", Json.of_nat (length (drop 1 values)))]
           | None =>
               JDict [("range", JStr full_range);
                      ("raw_data", Json.rows values);
                      ("row_count", Json.of_nat (length values))]
           end))
     (fun e => Json.error ("Failed to read sheet data: " +:+ str_exn e)),
   s).

Definition write_sheet_data (spreadsheet_id range_name : string)
    (data : grid) (sheet_name : string) (s : SheetsSession)
  : json * SheetsSession :=
  let s := set_active_sheet spreadsheet_id sheet_name s in
  let full_range := full_range sheet_name range_name in
  (try_except
     (result ← values_update spreadsheet_id full_range data;
      mret (JDict
        [("success", JBool true);
         ("message",
          JStr ("Updated " +:+ PyStr.of_Z (default 0%Z (updatedCells result))
                +:+ " cells in " +:+ full_range));
         ("range", JStr full_range);
         ("updated_rows", JInt (default 0%Z (updatedRows result)));
         ("updated_columns", JInt (default 0%Z (updatedColumns result)))]))
     (fun e => Json.error ("Failed to write sheet data: " +:+ str_exn e)),
   s).

Definition append_sheet_data (spreadsheet_id : string) (data : grid)
    (sheet_name : string) (s : SheetsSession) : json * SheetsSession :=
  let s := set_active_sheet spreadsheet_id sheet_name s in
  let range_name := sheet_name +:+ "!A:Z" in
  (try_except
     (result ← values_append spreadsheet_id range_name data;
      mret (JDict
        [("success", JBool true);
         ("message",
          JStr ("Appended " +:+ PyStr.of_nat (length data)
                +:+ " rows to " +:+ sheet_name));
         ("updated_range", JStr (default "" (result ≫= updatedRange)));
         ("updated_rows", JInt (default 0%Z (result ≫= appendedRows)));
         ("updated_cells", JInt (default 0%Z (result ≫= appendedCells)))]))
     (fun e => Json.error ("Failed to append sheet data: " +:+ str_exn e)),
   s).

Definition clear_sheet_range (spreadsheet_id range_name sheet_name : string)
    (s : SheetsSession) : json * SheetsSession :=
  let s := set_active_sheet spreadsheet_id sheet_name s in
  let full_range := full_range sheet_name range_name in
  (try_except
     (result ← values_clear spreadsheet_id full_range;
      mret (JDict
        [("success", JBool true);
         ("message", JStr ("Cleared range " +:+ full_range));
         ("cleared_range", JStr (default full_range (clearedRange result)))]))
     (fun e => Json.error ("Failed to clear sheet range: " +:+ str_exn e)),
   s).

Definition analyze_sheet_data
    (spreadsheet_id range_name analysis_type sheet_name : string)
    (s : SheetsSession) : json * SheetsSession :=
  let '(data_json, s) :=
    read_sheet_data spreadsheet_id range_name sheet_name s in
  (try_except
     (has_error ← Json.contains "error" data_json;
      if (has_error : bool) then Ok data_json else
      has_data ← Json.contains "data" data_json;
      if negb (has_data : bool) then
        Ok (Json.error "No structured data available for analysis")
      else
        data ← Json.subscript "data" data_json ≫= Json.as_records;
        headers ← Json.subscript "headers" data_json ≫= Json.as_strings;
        analyze headers data analysis_type
                (sheet_name +:+ "!" +:+ range_name))
     (fun e => Json.error ("Failed to analyze sheet data: " +:+ str_exn e)),
   s).

Definition create_summary_report
    (spreadsheet_id source_range report_title sheet_name : string)
    (s : SheetsSession) : json * SheetsSession :=
  let '(analysis_data, s) :=
    analyze_sheet_data spreadsheet_id source_range "summary" sheet_name s in
  let failed (e : exn) :=
    Json.error ("Failed to create summary report: " +:+ str_exn e) in
  match Json.contains "error" analysis_data with
  | Raise e => (failed e, s)
  | Ok true => (analysis_data, s)
  | Ok false =>
      match compose_report report_title now
              (sheet_name +:+ "!" +:+ source_range) analysis_data with
      | Raise e => (failed e, s)
      | Ok report_data =>
          let report_range := report_range report_data in
          let '(write_data, s) :=
            write_sheet_data spreadsheet_id report_range report_data
                             sheet_name s in
          (try_except
             (success ← Json.get_truthy "success" write_data;
              if (success : bool) then
                summary ← Json.subscript "summary" analysis_data;
                mret (JDict
                  [("success", JBool true);
                   ("message",
                    JStr ("Created summary report '" +:+ report_title
                          +:+ "' in range " +:+ sheet_name +:+ "!"
                          +:+ report_range));
                   ("report_location",
                    JStr (sheet_name +:+ "!" +:+ report_range));
                   ("report_rows", Json.of_nat (length report_data));
                   ("source_data_summary", summary)])
              else mret write_data)
             failed,
           s)
      end
  end.

End Tools.

(** ** The session object read back (lines 43-46, 67-71) *)

(** [SheetsSession.__init__]: nothing is active yet. *)
Definition new_session : SheetsSession :=
  {| current_spreadsheet_id := None; current_sheet_name := None |}.

(** [f"{x}"] for a value that is a string or [None]. *)
Definition format_optional (x : option string) : string :=
  match x with Some s => s | None => "None" end.

(** [get_sheet_info]: [not self.current_spreadsheet_id] holds for [None]
    and for the empty string. *)
Definition get_sheet_info (s : SheetsSession) : string :=
  match current_spreadsheet_id s with
  | Some id =>
      if PyStr.truthy id
      then "Active: " +:+ id +:+ ", Sheet: "
           +:+ format_optional (current_sheet_name s)
      else "No active spreadsheet set"
  | None => "No active spreadsheet set"
  end.

(** ** The interactive loop of [run_interactive_session] (lines 531-564) *)

Module Interactive.

(** [c.lower()] on one character: A-Z and U+00C0-00DE without U+00D7 move
    up by 32. *)
Definition lower_char (c : ascii) : ascii :=
  let n := PyStr.code c in
  if ((65 <=? n) && (n <=? 90))
     || ((192 <=? n) && (n <=? 222) && negb (n =? 215))
  then ascii_of_nat (n + 32) else c.

(** [s.lower()] *)
Fixpoint lower (s : string) : string :=
  match s with
  | EmptyString => EmptyString
  | String c s' => String (lower_char c) (lower s')
  end.

(** [user_input.lower() in ['quit', 'exit', 'q']] *)
Definition is_quit (user_input : string) : bool :=
  existsb (String.eqb (lower user_input)) ["quit"; "exit"; "q"].

(** What [input("You: ")] meets: a line, or Ctrl-C.  When the list is used
    up the input is at its end. *)
Inductive stdin : Type :=
| Line (text : string)
| CtrlC.

(** How [Runner.run_sync] ends: with a final output, with an exception, or
    interrupted by Ctrl-C. *)
Inductive outcome : Type :=
| Final (final_output : string)
| Failed (e : exn)
| Interrupted.

(** What the loop does that can be seen, in order: the goodbye line, the
    processing line, a call of the agent, the agent's answer, an error
    line. *)
Inductive event : Type :=
| Goodbye
| Processing
| Query (user_input : string)
| AgentSays (final_output : string)
| ErrorSays (message : string).

(** How the run over the given input ends: the loop was left by [break],
    or the input ran out; from then on [input] raises [EOFError], which the
    last handler reports before the loop asks again, so the session does
    not end. *)
Inductive ending : Type :=
| Exited
| InputExhausted.

Section Loop.

(** [str(e)] *)
Variable str_exn : exn -> string.
(** [Runner.run_sync(spreadsheet_agent, user_input, ...)], by the number of
    calls made before. *)
Variable run_sync : nat -> string -> outcome.

Fixpoint interactive_loop (calls : nat) (inputs : list stdin)
  : list event * ending :=
  match inputs with
  | [] => ([], InputExhausted)
  | CtrlC :: _ => ([Goodbye], Exited)
  | Line text :: rest =>
      let user_input := PyStr.strip text in
      if is_quit user_input then ([Goodbye], Exited)
      else if negb (PyStr.truthy user_input) then interactive_loop calls rest
      else
        match run_sync calls user_input with
        | Final final_output =>
            let '(events, e) := interactive_loop (S calls) rest in
            (Processing :: Query user_input :: AgentSays final_output
               :: events, e)
        | Failed exc =>
            let '(events, e) := interactive_loop (S calls) rest in
            (Processing :: Query user_input :: ErrorSays (str_exn exc)
               :: events, e)
        | Interrupted =>
            ([Processing; Query user_input; Goodbye], Exited)
        end
  end.

End Loop.

(** The agent calls among the events. *)
Definition queries (events : list event) : list string :=
  omap (fun ev => match ev with Query q => Some q | _ => None end) events.

End Interactive.

(** ** Specification-side notions *)

(** What the record-building step is expected to return for a grid. *)
Definition records_match_grid (values : grid) : Prop :=
  forall headers, values !! 0 = Some headers ->
  exists data,
    build_records values = Some (headers, data) /\
    length data = length values - 1 /\
    forall i r row, data !! i = Some r -> values !! S i = Some row ->
      length (PyDict.keys r) = length headers /\
      (forall j h, headers !! j = Some h ->
                   PyDict.get h r = Some (default "" (row !! j))) /\
      (forall v, v ∈ PyDict.values r ->
                 exists j, j < length headers /\ v = default "" (row !! j)).

(** The report grid, row by row, for a title, a timestamp, the echoed
    range, the header row and the records the summary was taken of. *)
Definition expected_report (title timestamp range : string)
    (headers : list string) (data : list Record) : grid :=
  [ [title];
    ["Generated on:"; timestamp];
    ["Source Range:"; range];
    [""];
    ["Summary Statistics:"];
    ["Total Rows:"; PyStr.of_Z (Z.of_nat (length data))];
    ["Total Columns:"; PyStr.of_Z (Z.of_nat (length headers))];
    ["Non-empty Cells:"; PyStr.of_Z (Z.of_nat (non_empty_cells data))];
    [""];
    ["Column Names:"] ]
  ++ imap (fun i header => [PyStr.of_nat (S i) +:+ "."; header]) headers
  ++ [ [""]; ["Sample Data (first 3 rows):"]; headers ]
  ++ map (fun record =>
            map (fun header => default "" (PyDict.get header record)) headers)
         (take 3 data).

(** The sample-data section of a report: what follows the ten fixed rows,
    the column rows and the two rows that introduce the section. *)
Definition sample_data_section (headers : list string) (report : grid) : grid :=
  drop (12 + length headers) report.

(** The values of one column, one per record, in record order. *)
Definition column (col : string) (data : list Record) : list string :=
  map (fun row => default "" (PyDict.get col row)) data.

(** Every record has every header as a key, as the records built from a
    grid have. *)
Definition covers (headers : list string) (data : list Record) : bool :=
  forallb (fun row => forallb (fun h => PyDict.mem h row) headers) data.

(** The trimmed values of a column that are not empty. *)
Definition trimmed_values (col : string) (data : list Record) : list string :=
  filter (fun v => v <> "") (map PyStr.strip (column col data)).

(** How often a value occurs, and where it occurs first. *)
Definition occurrences (v : string) (vals : list string) : nat :=
  length (filter (fun x => x = v) vals).

Fixpoint first_index (v : string) (vals : list string) : nat :=
  match vals with
  | [] => 0
  | x :: rest => if String.eqb x v then 0 else S (first_index v rest)
  end.

(** Larger key first; among equal keys, the order [R]. *)
Definition key_then {A} (key : A -> nat) (R : relation A) (a b : A) : Prop :=
  key b < key a \/ (key a = key b /\ R a b).

(** Descending frequency, ties broken by first encounter. *)
Definition ranks_before (vals : list string) : relation (string * nat) :=
  key_then snd
    (fun a b => first_index (fst a) vals < first_index (fst b) vals).

(** [ranking] lists every distinct value of [vals] once, with its
    frequency, each entry ranking before all the entries after it. *)
Definition frequency_ranking (vals : list string)
    (ranking : list (string * nat)) : Prop :=
  NoDup (map fst ranking) /\
  (forall v c, (v, c) ∈ ranking <-> v ∈ vals /\ c = occurrences v vals) /\
  StronglySorted (ranks_before vals) ranking.

(** The per-column table inside a trends document. *)
Definition most_common_of (doc : json) : result json :=
  Json.subscript "trends" doc ≫= Json.subscript "most_common_values".

Definition encode_most_common (mc : PyDict.t (list (string * nat))) : json :=
  Encode.dict (fun l => JList (map Encode.pair l)) mc.

(** What the trends analysis is expected to report for blank columns: an
    entry with an empty list. *)
Definition blank_columns_listed (headers : list string) (data : list Record)
  : Prop :=
  forall col, col ∈ headers -> trimmed_values col data = [] ->
  exists mc, most_common_values headers data [] = Ok mc /\
             PyDict.get col mc = Some [].

(** The eligibility test in words: once every '.' and '-' is removed, at
    least one character is left and all that is left are digit characters
    (those [str.isdigit] accepts). *)
Definition digits_after_stripping (s : string) : Prop :=
  let rest := filter (fun c => c <> "."%char /\ c <> "-"%char)
                     (list_ascii_of_string s) in
  rest <> [] /\ Forall (fun c => PyStr.is_digit c = true) rest.

(** The eligible values of a column, in record order. *)
Definition eligible_values (col : string) (data : list Record) : list string :=
  filter (fun v => eligible v = true) (column col data).

(** [m] is an item that no item is below; [m] is an item that no item is
    above. *)
Definition is_minimum (m : PyFloat.t) (xs : list PyFloat.t) : Prop :=
  m ∈ xs /\ forall x, x ∈ xs -> PyFloat.ltb x m = false.

Definition is_maximum (m : PyFloat.t) (xs : list PyFloat.t) : Prop :=
  m ∈ xs /\ forall x, x ∈ xs -> PyFloat.ltb m x = false.

(** The eligible values that [float] accepts, parsed. *)
Definition parsed_values (col : string) (data : list Record) : list PyFloat.t :=
  omap (fun v => match PyFloat.parse v with
                 | Ok x => Some x
                 | Raise _ => None
                 end)
       (eligible_values col data).

(** What the statistics analysis is expected to report, counting every
    eligible value. *)
Definition eligible_values_counted (headers : list string)
    (data : list Record) : Prop :=
  forall col, col ∈ headers ->
    match eligible_values col data with
    | [] => PyDict.get col (numeric_statistics headers data) = None
    | _ :: _ =>
        exists entry,
          PyDict.get col (numeric_statistics headers data) = Some entry /\
          count entry = length (eligible_values col data)
    end.

(** What the statistics analysis is expected to do with values that do not
    parse: leave them out and keep the rest of the column. *)
Definition unparsed_values_skipped (headers : list string)
    (data : list Record) : Prop :=
  forall col, col ∈ headers -> parsed_values col data <> [] ->
    exists entry,
      PyDict.get col (numeric_statistics headers data) = Some entry /\
      count entry = length (parsed_values col data).

(** Shapes of a tool response: a success flag with further fields, an
    error message, or plain data fields without a flag. *)
Definition success_response (doc : json) : Prop :=
  exists fields,
    doc = JDict (("success", JBool true) :: fields) /\
    fields <> [] /\ PyDict.mem "error" fields = false.

Definition error_response (doc : json) : Prop :=
  exists msg, doc = JDict [("error", JStr msg)].

Definition data_response (doc : json) : Prop :=
  exists fields,
    doc = JDict fields /\ fields <> [] /\
    PyDict.mem "success" fields = false /\ PyDict.mem "error" fields = false.

(** What every response is expected to be: flagged as a success, or an
    error. *)
Definition flagged_response (doc : json) : Prop :=
  success_response doc \/ error_response doc.

(** A row cut or filled with empty strings to a given width. *)
Definition pad_to (n : nat) (row : list string) : list string :=
  take n (row ++ replicate n "").

(** Every row of a grid fits into a given number of columns. *)
Definition fits_width (n : nat) (g : grid) : Prop :=
  Forall (fun row => length row <= n) g.

(** The counts of a frequency table, added up. *)
Definition total_count (table : list (string * nat)) : nat :=
  sum_list_with snd table.

(** An input that makes the interactive loop leave: Ctrl-C, or a line that
    reads quit, exit or q once trimmed and put in lower case. *)
Definition stops (i : Interactive.stdin) : bool :=
  match i with
  | Interactive.CtrlC => true
  | Interactive.Line text => Interactive.is_quit (PyStr.strip text)
  end.

(** The trimmed text of the lines that are not blank, in input order. *)
Definition asked (inputs : list Interactive.stdin) : list string :=
  omap (fun i => match i with
                 | Interactive.Line text =>
                     if PyStr.truthy (PyStr.strip text)
                     then Some (PyStr.strip text) else None
                 | Interactive.CtrlC => None
                 end)
       inputs.

(** ** Dictionary facts *)

Module PyDictFacts.
Import PyDict.

Section Facts.
Context {V : Type}.
Implicit Types (d : t V) (k : string) (v : V).

Lemma get_set_eq k v d : get k (set k v d) = Some v.
Proof.
  induction d as [|[k' v'] d IH]; simpl.
  - by rewrite String.eqb_refl.
  - destruct (String.eqb k' k) eqn:E; simpl; by rewrite E.
Qed.

Lemma get_set_ne k k' v d : k <> k' -> get k' (set k v d) = get k' d.
Proof.
  intros Hne. induction d as [|[k0 v0] d IH]; simpl.
  - destruct (String.eqb_spec k k'); congruence.
  - destruct (String.eqb_spec k0 k) as [->|]; simpl.
    + destruct (String.eqb_spec k k'); congruence.
    + destruct (String.eqb_spec k0 k'); congruence.
Qed.

Lemma get_None k d : get k d = None <-> k ∉ keys d.
Proof.
  induction d as [|[k' v'] d IH]; simpl.
  - split; [intros _; apply not_elem_of_nil | done].
  - rewrite not_elem_of_cons.
    destruct (String.eqb_spec k' k) as [->|Hne].
    + split; [done | intros [? _]; done].
    + rewrite IH. split; [intros ?; split; congruence | intros [_ ?]; done].
Qed.

Lemma get_Some_keys k v d : get k d = Some v -> k ∈ keys d.
Proof.
  intros H. destruct (decide (k ∈ keys d)) as [|Hn]; [done|].
  apply get_None in Hn. congruence.
Qed.

Lemma mem_keys k d : mem k d = true <-> k ∈ keys d.
Proof.
  unfold mem. destruct (get k d) eqn:E.
  - split; [intros _; eauto using get_Some_keys | done].
  - apply get_None in E. split; [done | intros; contradiction].
Qed.

Lemma keys_set k v d :
  keys (set k v d) = if decide (k ∈ keys d) then keys d else keys d ++ [k].
Proof.
  induction d as [|[k' v'] d IH]; simpl.
  - destruct (decide (k ∈ keys (@nil (string * V)))) as [Hin|Hin];
      [by apply elem_of_nil in Hin | done].
  - destruct (String.eqb_spec k' k) as [->|Hne]; simpl.
    + clear IH. case_decide as Hin; [done | exfalso; apply Hin; apply elem_of_cons; by left].
    + rewrite IH. destruct (decide (k ∈ keys d)) as [Hin|Hin].
      * case_decide as Hin'; [done | exfalso; apply Hin'; apply elem_of_cons; by right].
      * case_decide as Hin'; [|done].
        apply elem_of_cons in Hin' as [?|?]; congruence.
Qed.

Lemma NoDup_keys_set k v d : NoDup (keys d) -> NoDup (keys (set k v d)).
Proof.
  intros Hd. rewrite keys_set. case_decide; [done|].
  apply NoDup_app. split_and!; [done | | apply NoDup_singleton].
  intros x Hx ->%list_elem_of_singleton. contradiction.
Qed.

Lemma length_set_le k v d : length (set k v d) <= S (length d).
Proof.
  induction d as [|[k' v'] d IH]; simpl; [lia|].
  destruct (String.eqb k' k); simpl; lia.
Qed.

(** Two dictionaries with the same keys in the same order and the same
    value at every key are the same dictionary. *)
Lemma dict_ext d1 d2 :
  keys d1 = keys d2 -> NoDup (keys d1) ->
  (forall k, get k d1 = get k d2) -> d1 = d2.
Proof.
  revert d2. induction d1 as [|[k v] d1 IH]; intros [|[k2 v2] d2];
    simpl; try done.
  intros [= <- Hk] [Hnin Hnd]%NoDup_cons Hget.
  pose proof (Hget k) as Hk0. rewrite !String.eqb_refl in Hk0.
  injection Hk0 as <-. f_equal. apply IH; [done..|].
  intros k0. specialize (Hget k0). simpl in Hget.
  destruct (String.eqb_spec k k0) as [Heq|]; [subst k0|done].
  apply get_None in Hnin as Hg1. rewrite Hg1. symmetry.
  apply get_None. by rewrite <- Hk.
Qed.
Lemma get_elem_of k v d : NoDup (keys d) -> (k, v) ∈ d -> get k d = Some v.
Proof.
  induction d as [|[k' v'] d IH]; simpl.
  - by intros _ ?%elem_of_nil.
  - intros [Hnin Hnd]%NoDup_cons [[= -> ->]|Hin]%elem_of_cons.
    + by rewrite String.eqb_refl.
    + destruct (String.eqb_spec k' k) as [->|]; [|by apply IH].
      exfalso. apply Hnin. apply (list_elem_of_fmap_2 fst) in Hin. done.
Qed.

Lemma elem_of_values v d :
  NoDup (keys d) -> v ∈ values d -> exists k, get k d = Some v.
Proof.
  intros Hnd ([k v'] & -> & Hin)%list_elem_of_fmap.
  exists k. by apply get_elem_of.
Qed.
End Facts.

End PyDictFacts.

(** ** The record-building step *)

Module RecordFacts.
Import PyDict PyDictFacts.

Lemma enumerate_snoc {A} (start : nat) (l : list A) (x : A) :
  enumerate start (l ++ [x]) = enumerate start l ++ [(start + length l, x)].
Proof.
  revert start. induction l as [|y l IH]; intros start; simpl.
  - by rewrite Nat.add_0_r.
  - rewrite IH. by rewrite Nat.add_succ_comm.
Qed.

Lemma cell_lookup (row : list string) (i : nat) :
  cell row i = default "" (row !! i).
Proof.
  unfold cell. destruct (Nat.ltb_spec i (length row)) as [Hi|Hi]; [done|].
  by rewrite lookup_ge_None_2.
Qed.

(** One more header is one more assignment. *)
Lemma row_dict_snoc (headers row : list string) (h : string) :
  row_dict (headers ++ [h]) row
  = set h (cell row (length headers)) (row_dict headers row).
Proof. unfold row_dict. by rewrite enumerate_snoc, foldl_app. Qed.

Lemma NoDup_keys_row_dict headers row : NoDup (keys (row_dict headers row)).
Proof.
  induction headers as [|h headers IH] using rev_ind.
  - apply NoDup_nil_2.
  - rewrite row_dict_snoc. by apply NoDup_keys_set.
Qed.

Lemma elem_of_keys_row_dict headers row h :
  h ∈ keys (row_dict headers row) <-> h ∈ headers.
Proof.
  induction headers as [|h' headers IH] using rev_ind.
  - done.
  - rewrite row_dict_snoc, keys_set, elem_of_app, list_elem_of_singleton.
    case_decide as Hin; [|rewrite elem_of_app, list_elem_of_singleton];
      rewrite IH; [|done].
    split; [by left | intros [?| ->]; [done | by apply IH]].
Qed.

(** The keys depend on the header row only. *)
Lemma keys_row_dict_indep headers row row' :
  keys (row_dict headers row) = keys (row_dict headers row').
Proof.
  induction headers as [|h headers IH] using rev_ind; [done|].
  by rewrite !row_dict_snoc, !keys_set, IH.
Qed.

Lemma keys_row_dict_NoDup headers row :
  NoDup headers -> keys (row_dict headers row) = headers.
Proof.
  induction headers as [|h headers IH] using rev_ind; [done|].
  intros (Hnd & Hdisj & _)%NoDup_app.
  rewrite row_dict_snoc, keys_set, IH by done.
  case_decide as Hin; [|done].
  exfalso. apply (Hdisj h Hin), list_elem_of_singleton. done.
Qed.

Lemma length_keys_row_dict headers row :
  length (keys (row_dict headers row)) <= length headers.
Proof.
  apply submseteq_length, NoDup_submseteq; [apply NoDup_keys_row_dict|].
  intros h. by rewrite elem_of_keys_row_dict.
Qed.

(** The value at a name is the cell under the last column bearing it. *)
Lemma get_row_dict_split pre post h row :
  h ∉ post ->
  get h (row_dict (pre ++ h :: post) row) = Some (cell row (length pre)).
Proof.
  induction post as [|h' post IH] using rev_ind; intros Hnin.
  - rewrite row_dict_snoc. apply get_set_eq.
  - rewrite not_elem_of_app, list_elem_of_singleton in Hnin.
    destruct Hnin as [Hnin Hne].
    rewrite app_comm_cons, app_assoc, row_dict_snoc, get_set_ne by congruence.
    by apply IH.
Qed.

Lemma get_row_dict_last headers row j h :
  headers !! j = Some h ->
  (forall j', j < j' -> headers !! j' <> Some h) ->
  get h (row_dict headers row) = Some (default "" (row !! j)).
Proof.
  intros Hj Hlast.
  apply list_elem_of_split_length in Hj as (pre & post & -> & ->).
  rewrite <- cell_lookup. apply get_row_dict_split.
  intros (k & Hk)%list_elem_of_lookup_1.
  apply (Hlast (length pre + S k)); [lia|].
  rewrite lookup_app_r by lia.
  by replace (length pre + S k - length pre) with (S k) by lia.
Qed.

Lemma get_row_dict_NoDup headers row j h :
  NoDup headers -> headers !! j = Some h ->
  get h (row_dict headers row) = Some (default "" (row !! j)).
Proof.
  intros Hnd Hj. apply get_row_dict_last; [done|].
  intros j' Hlt Hj'.
  pose proof (NoDup_lookup _ _ _ _ Hnd Hj Hj'). lia.
Qed.

Lemma get_row_dict_is_Some headers row h :
  h ∈ headers -> is_Some (get h (row_dict headers row)).
Proof.
  intros Hin%(elem_of_keys_row_dict _ row).
  destruct (get h (row_dict headers row)) eqn:E; [by eexists|].
  by apply get_None in E.
Qed.

Lemma build_records_Some values headers :
  values !! 0 = Some headers -> 2 <= length values ->
  build_records values = Some (headers, build_data headers (drop 1 values)).
Proof.
  intros H0 Hlen. unfold build_records.
  destruct (Nat.ltb_spec 1 (length values)); [|lia].
  destruct values; [done|]. by injection H0 as ->.
Qed.

Lemma build_records_None values :
  length values <= 1 -> build_records values = None.
Proof.
  intros Hlen. unfold build_records.
  destruct (Nat.ltb_spec 1 (length values)); [lia | done].
Qed.

Lemma build_data_lookup headers rows i r :
  build_data headers rows !! i = Some r ->
  exists row, rows !! i = Some row /\ r = row_dict headers row.
Proof.
  unfold build_data. rewrite list_lookup_fmap.
  intros (row & Hrow & ->)%fmap_Some. by exists row.
Qed.

End RecordFacts.

(** ** Documents read back, and the composed report *)

Module ReportFacts.
Import PyDict PyDictFacts RecordFacts.

Lemma as_strings_strings (l : list string) :
  Json.as_strings (Json.strings l) = Ok l.
Proof.
  unfold Json.as_strings, Json.strings. simpl.
  induction l as [|x l IH]; [done|]. simpl in *. by rewrite IH.
Qed.

Lemma as_record_record (r : Record) : Json.as_record (Json.record r) = Ok r.
Proof.
  unfold Json.as_record, Json.record. simpl.
  induction r as [|[k v] r IH]; [done|]. simpl in *. by rewrite IH.
Qed.

Lemma as_records_records (data : list Record) :
  Json.as_records (Json.records data) = Ok data.
Proof.
  unfold Json.as_records, Json.records. simpl.
  induction data as [|r data IH]; [done|].
  simpl in *. by rewrite as_record_record, IH.
Qed.

Lemma map_enumerate {A B} (f : nat * A -> B) (start : nat) (l : list A) :
  map f (enumerate start l) = imap (fun i x => f (start + i, x)) l.
Proof.
  revert start. induction l as [|x l IH]; intros start; [done|].
  simpl. rewrite Nat.add_0_r, IH. f_equal.
  apply imap_ext. intros i y _. simpl. do 2 f_equal. lia.
Qed.

Lemma sample_data_take (data : list Record) : sample_data data = take 3 data.
Proof.
  unfold sample_data. destruct (Nat.ltb_spec 3 (length data)); [done|].
  by rewrite take_ge by lia.
Qed.

Lemma sample_data_nil (data : list Record) :
  data <> [] -> is_nil (sample_data data) = false.
Proof. rewrite sample_data_take. by destruct data. Qed.

(** The summary document of [analyze]. *)
Lemma analyze_summary headers data range :
  analyze headers data "summary" range
  = Ok (JDict
      [("analysis_type", JStr "summary");
       ("range", JStr range);
       ("total_rows", Json.of_nat (length data));
       ("total_columns", Json.of_nat (length headers));
       ("columns", Json.strings headers);
       ("summary",
        JDict [("row_count", Json.of_nat (length data));
               ("column_count", Json.of_nat (length headers));
               ("non_empty_cells", Json.of_nat (non_empty_cells data));
               ("sample_data", Json.records (sample_data data))])]).
Proof. reflexivity. Qed.

(** The report composed from that document. *)
Lemma compose_report_summary title timestamp range range' headers data doc :
  data <> [] ->
  analyze headers data "summary" range' = Ok doc ->
  compose_report title timestamp range doc
  = Ok (expected_report title timestamp range headers data).
Proof.
  intros Hdata. rewrite analyze_summary. intros [= <-].
  unfold compose_report. cbn -[Json.as_strings Json.as_records
    Json.strings Json.records sample_data column_rows sample_section].
  rewrite as_strings_strings. cbn -[Json.as_records Json.records sample_data
    column_rows sample_section].
  rewrite as_records_records. cbn -[sample_data column_rows sample_section].
  unfold expected_report, column_rows, sample_section, Json.of_nat.
  rewrite sample_data_nil by done. rewrite map_enumerate, sample_data_take.
  do 11 f_equal.
Qed.

(** Writing a sample row back under the same headers gives the record it
    was read from. *)
Lemma row_dict_sample_row headers row :
  row_dict headers (sample_row headers (row_dict headers row))
  = row_dict headers row.
Proof.
  apply dict_ext.
  - apply keys_row_dict_indep.
  - apply NoDup_keys_row_dict.
  - intros k. destruct (decide (k ∈ headers)) as [Hin|Hnin].
    + apply list_elem_of_split_r in Hin as (pre & post & -> & Hpost).
      rewrite !get_row_dict_split by done. f_equal.
      rewrite !cell_lookup. unfold sample_row.
      rewrite list_lookup_fmap, lookup_app_r, Nat.sub_diag by done. simpl.
      rewrite get_row_dict_split by done. by rewrite cell_lookup.
    + transitivity (@None string); [|symmetry];
        apply get_None; by rewrite elem_of_keys_row_dict.
Qed.

Lemma build_data_sample_rows headers rows :
  build_data headers (map (sample_row headers) (build_data headers rows))
  = build_data headers rows.
Proof.
  unfold build_data. rewrite !map_map. apply map_ext.
  intros row. apply row_dict_sample_row.
Qed.

Lemma build_data_take headers rows n :
  take n (build_data headers rows) = build_data headers (take n rows).
Proof. unfold build_data. by rewrite <- fmap_take. Qed.

Lemma sample_data_section_expected title timestamp range headers data :
  sample_data_section headers
    (expected_report title timestamp range headers data)
  = headers :: map (sample_row headers) (take 3 data).
Proof.
  unfold sample_data_section, expected_report.
  rewrite drop_app_ge by (simpl; lia).
  rewrite drop_app_ge by (rewrite length_imap; simpl; lia).
  rewrite length_imap. simpl length.
  by replace (12 + length headers - 10 - length headers) with 2 by lia.
Qed.

Lemma build_records_section headers rows :
  rows <> [] ->
  build_records (headers :: map (sample_row headers) (build_data headers rows))
  = Some (headers, build_data headers rows).
Proof.
  intros Hrows. unfold build_records.
  destruct rows as [|row rows]; [done|].
  change (1 <? length (headers :: _)) with true. cbv iota.
  by rewrite build_data_sample_rows.
Qed.

End ReportFacts.

(** ** The tools on a structured grid *)

Module ToolFacts.
Import PyDict PyDictFacts RecordFacts ReportFacts.

Section WithRemote.
Variable str_exn : exn -> string.
Variable values_get : string -> string -> result grid.
Variable values_update : string -> string -> grid -> result update_reply.
Variable now : string.

Lemma read_sheet_data_structured id range_name sheet s values headers :
  values_get id (full_range sheet range_name) = Ok values ->
  values !! 0 = Some headers -> 2 <= length values ->
  fst (read_sheet_data str_exn values_get id range_name sheet s)
  = JDict [("range", JStr (full_range sheet range_name));
           ("headers", Json.strings headers);
           ("data", Json.records (build_data headers (drop 1 values)));
           ("row_count", Json.of_nat (length (drop 1 values)))].
Proof.
  intros Hget H0 Hlen. unfold read_sheet_data. simpl. rewrite Hget. simpl.
  rewrite (build_records_Some _ _ H0 Hlen). by destruct values.
Qed.

Lemma read_sheet_data_unstructured id range_name sheet s values :
  values_get id (full_range sheet range_name) = Ok values ->
  length values <= 1 ->
  let doc := fst (read_sheet_data str_exn values_get id range_name sheet s) in
  Json.contains "error" doc = Ok false /\ Json.contains "data" doc = Ok false.
Proof.
  intros Hget Hlen. unfold read_sheet_data. simpl. rewrite Hget. simpl.
  rewrite (build_records_None _ Hlen). by destruct values.
Qed.

Lemma read_sheet_data_failed id range_name sheet s e :
  values_get id (full_range sheet range_name) = Raise e ->
  fst (read_sheet_data str_exn values_get id range_name sheet s)
  = Json.error ("Failed to read sheet data: " +:+ str_exn e).
Proof. intros Hget. unfold read_sheet_data. simpl. by rewrite Hget. Qed.

Lemma analyze_sheet_data_structured id range_name kind sheet s values headers :
  values_get id (full_range sheet range_name) = Ok values ->
  values !! 0 = Some headers -> 2 <= length values ->
  fst (analyze_sheet_data str_exn values_get id range_name kind sheet s)
  = try_except
      (analyze headers (build_data headers (drop 1 values)) kind
               (sheet +:+ "!" +:+ range_name))
      (fun e => Json.error ("Failed to analyze sheet data: " +:+ str_exn e)).
Proof.
  intros Hget H0 Hlen. unfold analyze_sheet_data.
  pose proof (read_sheet_data_structured id range_name sheet s _ _
                Hget H0 Hlen) as Hread.
  destruct (read_sheet_data _ _ _ _ _ _) as [doc s']. simpl in Hread.
  subst doc. cbn -[Json.as_strings Json.as_records Json.strings Json.records
                   analyze].
  rewrite as_records_records. cbn -[Json.as_strings Json.strings analyze].
  by rewrite as_strings_strings.
Qed.

Lemma analyze_sheet_data_unstructured id range_name kind sheet s values :
  values_get id (full_range sheet range_name) = Ok values ->
  length values <= 1 ->
  fst (analyze_sheet_data str_exn values_get id range_name kind sheet s)
  = Json.error "No structured data available for analysis".
Proof.
  intros Hget Hlen. unfold analyze_sheet_data.
  pose proof (read_sheet_data_unstructured id range_name sheet s _
                Hget Hlen) as [He Hd].
  destruct (read_sheet_data _ _ _ _ _ _) as [doc s']. simpl in *.
  by rewrite He, Hd.
Qed.

Lemma analyze_sheet_data_failed id range_name kind sheet s e :
  values_get id (full_range sheet range_name) = Raise e ->
  fst (analyze_sheet_data str_exn values_get id range_name kind sheet s)
  = Json.error ("Failed to read sheet data: " +:+ str_exn e).
Proof.
  intros Hget. unfold analyze_sheet_data.
  pose proof (read_sheet_data_failed id range_name sheet s _ Hget) as Hread.
  destruct (read_sheet_data _ _ _ _ _ _) as [doc s']. simpl in *.
  by subst doc.
Qed.

Lemma build_data_nil headers (values : grid) :
  2 <= length values -> build_data headers (drop 1 values) <> [].
Proof. destruct values as [|? [|? ?]]; simpl; [lia | lia | done]. Qed.

Lemma analyze_sheet_data_summary id range_name sheet s values headers :
  values_get id (full_range sheet range_name) = Ok values ->
  values !! 0 = Some headers -> 2 <= length values ->
  let data := build_data headers (drop 1 values) in
  fst (analyze_sheet_data str_exn values_get id range_name "summary" sheet s)
  = JDict
      [("analysis_type", JStr "summary");
       ("range", JStr (sheet +:+ "!" +:+ range_name));
       ("total_rows", Json.of_nat (length data));
       ("total_columns", Json.of_nat (length headers));
       ("columns", Json.strings headers);
       ("summary",
        JDict [("row_count", Json.of_nat (length data));
               ("column_count", Json.of_nat (length headers));
               ("non_empty_cells", Json.of_nat (non_empty_cells data));
               ("sample_data", Json.records (sample_data data))])].
Proof.
  intros Hget H0 Hlen data.
  rewrite (analyze_sheet_data_structured id range_name "summary" sheet s
             _ _ Hget H0 Hlen).
  by rewrite analyze_summary.
Qed.

Lemma compose_report_structured id source_range title sheet s values headers :
  values_get id (full_range sheet source_range) = Ok values ->
  values !! 0 = Some headers -> 2 <= length values ->
  compose_report title now (sheet +:+ "!" +:+ source_range)
    (fst (analyze_sheet_data str_exn values_get id source_range "summary"
            sheet s))
  = Ok (expected_report title now (sheet +:+ "!" +:+ source_range) headers
          (build_data headers (drop 1 values))).
Proof.
  intros Hget H0 Hlen.
  rewrite (analyze_sheet_data_summary id source_range sheet s _ _
             Hget H0 Hlen).
  eapply compose_report_summary; [|apply analyze_summary].
  by apply build_data_nil.
Qed.

Lemma create_summary_report_structured
    id source_range title sheet s values headers :
  values_get id (full_range sheet source_range) = Ok values ->
  values !! 0 = Some headers -> 2 <= length values ->
  let data := build_data headers (drop 1 values) in
  let report := expected_report title now (sheet +:+ "!" +:+ source_range)
                  headers data in
  let target := "H1:K" +:+ PyStr.of_nat (length report) in
  fst (create_summary_report str_exn values_get values_update now
         id source_range title sheet s)
  = match values_update id (full_range sheet target) report with
    | Ok reply =>
        JDict [("success", JBool true);
               ("message",
                JStr ("Created summary report '" +:+ title +:+ "' in range "
                      +:+ sheet +:+ "!" +:+ target));
               ("report_location", JStr (sheet +:+ "!" +:+ target));
               ("report_rows", Json.of_nat (length report));
               ("source_data_summary",
                JDict [("row_count", Json.of_nat (length data));
                       ("column_count", Json.of_nat (length headers));
                       ("non_empty_cells",
                        Json.of_nat (non_empty_cells data));
                       ("sample_data", Json.records (sample_data data))])]
    | Raise e =>
        JDict [("error", JStr ("Failed to write sheet data: " +:+ str_exn e))]
    end.
Proof.
  intros Hget H0 Hlen data report target.
  pose proof (analyze_sheet_data_summary id source_range sheet s _ _
                Hget H0 Hlen) as Han.
  pose proof (compose_report_structured id source_range title sheet s _ _
                Hget H0 Hlen) as Hcompose.
  unfold create_summary_report.
  destruct (analyze_sheet_data _ _ _ _ _ _ _) as [doc s'].
  cbn [fst] in Han, Hcompose. subst doc.
  cbn [Json.contains Json.as_dict mbind result_bind mret result_ret
       PyDict.mem PyDict.get String.eqb Ascii.eqb Bool.eqb].
  rewrite Hcompose. fold data report.
  unfold write_sheet_data, report_range. fold target. simpl.
  destruct (values_update id (full_range sheet target) report); done.
Qed.

End WithRemote.

End ToolFacts.

(** ** Frequency tables and the stable sort *)

Module TrendFacts.
Import PyDict PyDictFacts RecordFacts.

Lemma truthy_ne (s : string) : PyStr.truthy s = true <-> s <> "".
Proof. by destruct s. Qed.

Lemma covers_get headers data row h :
  covers headers data = true -> row ∈ data -> h ∈ headers ->
  exists v, get h row = Some v.
Proof.
  unfold covers. rewrite forallb_forall. intros Hc Hrow Hh.
  apply list_elem_of_In, Hc in Hrow. rewrite forallb_forall in Hrow.
  apply list_elem_of_In, Hrow in Hh. unfold mem in Hh.
  destruct (get h row); [by eexists | done].
Qed.

Lemma covers_cons headers row data :
  covers headers (row :: data) = true -> covers headers data = true.
Proof. unfold covers. simpl. by intros [_ ?]%andb_true_iff. Qed.

Lemma covers_build_data headers rows :
  covers headers (build_data headers rows) = true.
Proof.
  unfold covers, build_data. rewrite forallb_forall.
  intros r (row & <- & _)%in_map_iff. rewrite forallb_forall.
  intros h Hin%list_elem_of_In. apply mem_keys.
  by apply elem_of_keys_row_dict.
Qed.

(** Line 337 collects the trimmed non-empty values of the column. *)
Lemma column_values_trimmed headers data col :
  covers headers data = true -> col ∈ headers ->
  column_values col data = Ok (trimmed_values col data).
Proof.
  intros Hc Hcol. induction data as [|row data IH]; [done|].
  destruct (covers_get _ _ row col Hc) as [v Hv]; [by left | done |].
  simpl. unfold getitem. rewrite Hv. simpl.
  rewrite IH by (by eapply covers_cons). simpl. f_equal.
  unfold trimmed_values, column. simpl. rewrite Hv. simpl.
  unfold non_blank. destruct (PyStr.truthy (PyStr.strip v)) eqn:E.
  - by rewrite filter_cons_True by (by apply truthy_ne).
  - rewrite filter_cons_False; [done|].
    intros Hne%truthy_ne. congruence.
Qed.

(** *** The frequency table *)

Lemma value_counts_snoc vals v :
  value_counts (vals ++ [v])
  = set v (default 0 (get v (value_counts vals)) + 1) (value_counts vals).
Proof. unfold value_counts. by rewrite foldl_app. Qed.

Lemma occurrences_snoc v x vals :
  occurrences v (vals ++ [x])
  = occurrences v vals + (if decide (x = v) then 1 else 0).
Proof.
  unfold occurrences. rewrite filter_app, length_app. f_equal.
  case_decide.
  - by rewrite filter_cons_True.
  - by rewrite filter_cons_False.
Qed.

Lemma occurrences_not_elem_of v vals : v ∉ vals -> occurrences v vals = 0.
Proof.
  intros Hnin. unfold occurrences.
  induction vals as [|x vals IH]; [done|].
  apply not_elem_of_cons in Hnin as [Hne Hnin].
  rewrite filter_cons_False by congruence. by apply IH.
Qed.

Lemma get_value_counts vals v :
  get v (value_counts vals)
  = if decide (v ∈ vals) then Some (occurrences v vals) else None.
Proof.
  induction vals as [|x vals IH] using rev_ind.
  - by rewrite decide_False by apply not_elem_of_nil.
  - rewrite value_counts_snoc, occurrences_snoc.
    destruct (decide (x = v)) as [->|Hne].
    + rewrite get_set_eq, IH.
      rewrite (decide_True (P := v ∈ vals ++ [v]))
        by (apply elem_of_app; right; by apply list_elem_of_singleton).
      f_equal. case_decide as Hin; simpl; [done|].
      by rewrite occurrences_not_elem_of.
    + rewrite get_set_ne, IH, Nat.add_0_r by done.
      apply decide_ext.
      rewrite elem_of_app, list_elem_of_singleton.
      split; [by left | intros [?|?]; [done | congruence]].
Qed.

Lemma keys_value_counts_snoc vals v :
  keys (value_counts (vals ++ [v]))
  = if decide (v ∈ vals) then keys (value_counts vals)
    else keys (value_counts vals) ++ [v].
Proof.
  rewrite value_counts_snoc, keys_set.
  apply decide_ext. rewrite <- mem_keys. unfold mem.
  rewrite get_value_counts. by case_decide.
Qed.

Lemma NoDup_keys_value_counts vals : NoDup (keys (value_counts vals)).
Proof.
  induction vals as [|x vals IH] using rev_ind; [apply NoDup_nil_2|].
  rewrite value_counts_snoc. by apply NoDup_keys_set.
Qed.

Lemma elem_of_keys_value_counts vals v :
  v ∈ keys (value_counts vals) <-> v ∈ vals.
Proof.
  rewrite <- mem_keys. unfold mem. rewrite get_value_counts.
  by case_decide.
Qed.

Lemma first_index_app v vals rest :
  v ∈ vals -> first_index v (vals ++ rest) = first_index v vals.
Proof.
  induction vals as [|x vals IH]; simpl.
  - by intros ?%elem_of_nil.
  - destruct (String.eqb_spec x v) as [->|Hne]; [done|].
    intros [?|Hin]%elem_of_cons; [congruence|]. by rewrite IH.
Qed.

Lemma first_index_lt v vals : v ∈ vals -> first_index v vals < length vals.
Proof.
  induction vals as [|x vals IH]; simpl.
  - by intros ?%elem_of_nil.
  - destruct (String.eqb_spec x v) as [->|Hne]; [lia|].
    intros [?|Hin]%elem_of_cons; [congruence|]. apply IH in Hin. lia.
Qed.

Lemma first_index_fresh v vals :
  v ∉ vals -> first_index v (vals ++ [v]) = length vals.
Proof.
  induction vals as [|x vals IH]; simpl.
  - by rewrite String.eqb_refl.
  - intros [Hne Hnin]%not_elem_of_cons.
    destruct (String.eqb_spec x v) as [->|_]; [done|]. by rewrite IH.
Qed.

Lemma StronglySorted_impl_in {A} (R R' : relation A) (l : list A) :
  (forall x y, x ∈ l -> y ∈ l -> R x y -> R' x y) ->
  StronglySorted R l -> StronglySorted R' l.
Proof.
  intros Himpl HS. induction HS as [|x l HS IH Hall]; constructor.
  - apply IH. intros y z Hy Hz. apply Himpl; by right.
  - rewrite Forall_forall in Hall |- *. intros y Hy.
    apply Himpl; [by left | by right | by apply Hall].
Qed.

(** The keys of the table stand in the order of first encounter. *)
Lemma keys_value_counts_sorted vals :
  StronglySorted (fun k1 k2 => first_index k1 vals < first_index k2 vals)
                 (keys (value_counts vals)).
Proof.
  induction vals as [|x vals IH] using rev_ind; [constructor|].
  assert (StronglySorted
            (fun k1 k2 => first_index k1 (vals ++ [x])
                          < first_index k2 (vals ++ [x]))
            (keys (value_counts vals))) as IH'.
  { eapply StronglySorted_impl_in; [|exact IH].
    intros k1 k2 Hk1 Hk2. simpl.
    apply (proj1 (elem_of_keys_value_counts _ _)) in Hk1, Hk2.
    by rewrite !first_index_app by done. }
  rewrite keys_value_counts_snoc. case_decide as Hx; [exact IH'|].
  apply StronglySorted_app_2; [| exact IH' | repeat constructor].
  intros k1 k2 Hk1 ->%list_elem_of_singleton.
  apply (proj1 (elem_of_keys_value_counts _ _)) in Hk1.
  rewrite first_index_app, first_index_fresh by done.
  by apply first_index_lt.
Qed.

End TrendFacts.

(** ** The stable descending sort, and the top three *)

Module SortFacts.
Import PyDict PyDictFacts RecordFacts TrendFacts.

Section Stable.
Context {A : Type} (key : A -> nat) (R : relation A).

Lemma insert_desc_Permutation x l : insert_desc key x l ≡ₚ x :: l.
Proof.
  induction l as [|y l IH]; simpl; [done|].
  destruct (key x <? key y); [|done].
  rewrite IH. apply Permutation_swap.
Qed.

Lemma sorted_desc_Permutation l : sorted_desc key l ≡ₚ l.
Proof.
  induction l as [|x l IH]; simpl; [done|].
  by rewrite insert_desc_Permutation, IH.
Qed.

Lemma insert_desc_sorted x l :
  StronglySorted (key_then key R) l -> Forall (R x) l ->
  StronglySorted (key_then key R) (insert_desc key x l).
Proof.
  induction l as [|y l IH]; simpl; intros HS HR.
  - repeat constructor.
  - apply StronglySorted_inv in HS as [HS Hy].
    apply Forall_cons in HR as [HRy HR].
    destruct (Nat.ltb_spec (key x) (key y)) as [Hlt|Hge].
    + constructor; [by apply IH|].
      rewrite insert_desc_Permutation. constructor; [by left | done].
    + constructor; [by constructor|].
      assert (key_then key R x y) as Hxy.
      { destruct (decide (key y = key x)); [right | left; lia]. done. }
      constructor; [done|].
      rewrite Forall_forall in Hy. rewrite Forall_forall in HR.
      rewrite Forall_forall. intros z Hz.
      destruct (Hy z Hz) as [Hlt|[Heq _]].
      * left. lia.
      * destruct (decide (key z = key x)) as [Hzx|]; [|left; lia].
        right. split; [done | by apply HR].
Qed.

(** Stability: an input in [R]-order comes out ordered by key, larger
    first, and by [R] among equal keys. *)
Lemma sorted_desc_sorted l :
  StronglySorted R l -> StronglySorted (key_then key R) (sorted_desc key l).
Proof.
  induction 1 as [|x l HS IH HR]; simpl; [constructor|].
  apply insert_desc_sorted; [done|].
  by rewrite sorted_desc_Permutation.
Qed.

End Stable.

Lemma get_elem_of_items {V} (k : string) (v : V) (d : PyDict.t V) :
  get k d = Some v -> (k, v) ∈ d.
Proof.
  induction d as [|[k' v'] d IH]; simpl; [done|].
  destruct (String.eqb_spec k' k) as [->|_].
  - intros [= ->]. by left.
  - intros ?. right. by apply IH.
Qed.

Lemma StronglySorted_on_keys {V} (R : relation string) (d : PyDict.t V) :
  StronglySorted R (keys d) ->
  StronglySorted (fun a b => R (fst a) (fst b)) d.
Proof.
  induction d as [|kv d IH]; simpl; [constructor|].
  intros [HS Hall]%StronglySorted_inv. constructor; [by apply IH|].
  rewrite Forall_forall in Hall. rewrite Forall_forall.
  intros x Hx. apply Hall. by apply list_elem_of_fmap_2.
Qed.

(** Line 343 yields the first three entries of the frequency ranking. *)
Lemma top3_ranking (vals : list string) :
  exists ranking, frequency_ranking vals ranking /\ top3 vals = take 3 ranking.
Proof.
  exists (sorted_desc snd (value_counts vals)). split; [|done].
  pose proof (sorted_desc_Permutation snd (value_counts vals)) as Hperm.
  split_and!.
  - rewrite Hperm. apply NoDup_keys_value_counts.
  - intros v c. rewrite Hperm. split.
    + intros Hin. apply get_elem_of in Hin; [|apply NoDup_keys_value_counts].
      rewrite get_value_counts in Hin. case_decide; [|done].
      injection Hin as <-. done.
    + intros [Hv ->]. apply get_elem_of_items.
      rewrite get_value_counts. by rewrite decide_True.
  - apply (sorted_desc_sorted snd
             (fun a b => first_index (fst a) vals < first_index (fst b) vals)).
    apply (StronglySorted_on_keys
             (fun k1 k2 => first_index k1 vals < first_index k2 vals)),
          keys_value_counts_sorted.
Qed.

(** The loop of lines 336-344 gives each header its own entry, or none
    when the column has no non-blank value. *)
Lemma most_common_values_spec headers data acc :
  covers headers data = true ->
  exists mc,
    most_common_values headers data acc = Ok mc /\
    forall col,
      get col mc
      = if decide (col ∈ headers /\ trimmed_values col data <> [])
        then Some (top3 (trimmed_values col data))
        else get col acc.
Proof.
  intros Hc.
  assert (forall hs, hs ⊆ headers -> forall acc0, exists mc,
    most_common_values hs data acc0 = Ok mc /\
    forall col,
      get col mc
      = if decide (col ∈ hs /\ trimmed_values col data <> [])
        then Some (top3 (trimmed_values col data))
        else get col acc0) as Hgen.
  { induction hs as [|h hs IH]; intros Hsub acc0.
    - exists acc0. split; [done|]. intros col.
      rewrite decide_False; [done|]. intros [[]%elem_of_nil _].
    - simpl. rewrite (column_values_trimmed headers) by
        (done || apply Hsub; by left). simpl.
      destruct (IH (fun x Hx => Hsub x (list_elem_of_further _ _ _ Hx))
                  (if is_nil (trimmed_values h data) then acc0
                   else set h (top3 (trimmed_values h data)) acc0))
        as (mc & Hmc & Hget).
      exists mc. split; [done|]. intros col. rewrite Hget.
      destruct (decide (col ∈ hs /\ trimmed_values col data <> []))
        as [[Hin Hne]|Hnot].
      + rewrite decide_True; [done|]. split; [by right | done].
      + destruct (decide (col = h)) as [->|Hne].
        * destruct (trimmed_values h data) as [|v vs] eqn:E; simpl.
          -- rewrite decide_False; [done|]. by intros [_ ?].
          -- rewrite get_set_eq. rewrite decide_True; [done|].
             split; [by left | done].
        * rewrite (decide_False (P := col ∈ h :: hs /\ _)).
          -- destruct (is_nil _); [done|]. by rewrite get_set_ne.
          -- intros [[?|?]%elem_of_cons ?]; [done | by apply Hnot]. }
  by apply Hgen.
Qed.

End SortFacts.

(** ** Float comparisons and the statistics loop *)

Module StatFacts.
Import PyDict PyDictFacts RecordFacts TrendFacts.

Lemma ltb_irrefl (x : PyFloat.t) : PyFloat.ltb x x = false.
Proof.
  unfold PyFloat.ltb, SFltb.
  destruct x as [[]|[]| |[] m e]; simpl; try done;
    rewrite Z.compare_refl;
    change (Pos.compare_cont Eq m m) with (Pos.compare m m);
    by rewrite Pos.compare_refl.
Qed.

Lemma ltb_trans (x y z : PyFloat.t) :
  PyFloat.ltb x y = true -> PyFloat.ltb y z = true -> PyFloat.ltb x z = true.
Proof.
  unfold PyFloat.ltb, SFltb.
  destruct x as [[]|[]| |[] mx ex], y as [[]|[]| |[] my ey],
           z as [[]|[]| |[] mz ez]; simpl; try done;
    change (Pos.compare_cont Eq ?a ?b) with (Pos.compare a b);
    destruct (Z.compare_spec ex ey), (Z.compare_spec ey ez),
             (Z.compare_spec ex ez); try done; try lia;
    destruct (Pos.compare_spec mx my), (Pos.compare_spec my mz),
             (Pos.compare_spec mx mz); simpl; try done; try lia.
Qed.

Lemma min_is_minimum (xs : list PyFloat.t) :
  xs <> [] -> exists m, PyFloat.min xs = Ok m /\ is_minimum m xs.
Proof.
  destruct xs as [|x xs]; [done|]. intros _. simpl. eexists. split; [done|].
  assert (forall seen m, is_minimum m seen ->
            is_minimum (foldl (fun m x => if PyFloat.ltb x m then x else m)
                              m xs)
                       (seen ++ xs)) as Hgen.
  { induction xs as [|y xs IH]; intros seen m Hm; simpl.
    - by rewrite app_nil_r.
    - replace (seen ++ y :: xs) with ((seen ++ [y]) ++ xs)
        by (by rewrite <- app_assoc).
      apply IH. destruct Hm as [Hin Hlow].
      destruct (PyFloat.ltb y m) eqn:E; split.
      + apply elem_of_app. right. by left.
      + intros x' [Hx'|Hx']%elem_of_app.
        * destruct (PyFloat.ltb x' y) eqn:E'; [|done].
          rewrite <- (Hlow x' Hx'). symmetry. by eapply ltb_trans.
        * apply list_elem_of_singleton in Hx' as ->. apply ltb_irrefl.
      + apply elem_of_app. by left.
      + intros x' [Hx'|Hx']%elem_of_app; [by apply Hlow|].
        by apply list_elem_of_singleton in Hx' as ->. }
  apply (Hgen [x] x). split; [by left|].
  intros x' ->%list_elem_of_singleton. apply ltb_irrefl.
Qed.

Lemma max_is_maximum (xs : list PyFloat.t) :
  xs <> [] -> exists m, PyFloat.max xs = Ok m /\ is_maximum m xs.
Proof.
  destruct xs as [|x xs]; [done|]. intros _. simpl. eexists. split; [done|].
  assert (forall seen m, is_maximum m seen ->
            is_maximum (foldl (fun m x => if PyFloat.ltb m x then x else m)
                              m xs)
                       (seen ++ xs)) as Hgen.
  { induction xs as [|y xs IH]; intros seen m Hm; simpl.
    - by rewrite app_nil_r.
    - replace (seen ++ y :: xs) with ((seen ++ [y]) ++ xs)
        by (by rewrite <- app_assoc).
      apply IH. destruct Hm as [Hin Hhigh].
      destruct (PyFloat.ltb m y) eqn:E; split.
      + apply elem_of_app. right. by left.
      + intros x' [Hx'|Hx']%elem_of_app.
        * destruct (PyFloat.ltb y x') eqn:E'; [|done].
          rewrite <- (Hhigh x' Hx'). symmetry. by eapply ltb_trans.
        * apply list_elem_of_singleton in Hx' as ->. apply ltb_irrefl.
      + apply elem_of_app. by left.
      + intros x' [Hx'|Hx']%elem_of_app; [by apply Hhigh|].
        by apply list_elem_of_singleton in Hx' as ->. }
  apply (Hgen [x] x). split; [by left|].
  intros x' ->%list_elem_of_singleton. apply ltb_irrefl.
Qed.

(** *** Eligibility *)

Lemma chars_removed (s : string) :
  list_ascii_of_string
    (PyStr.remove_char "-" (PyStr.remove_char "." s))
  = filter (fun c => c <> "."%char /\ c <> "-"%char) (list_ascii_of_string s).
Proof.
  induction s as [|a s IH]; [done|]. simpl.
  destruct (Ascii.eqb_spec a ".") as [->|Hdot].
  - rewrite filter_cons_False; [done|]. by intros [? _].
  - simpl. destruct (Ascii.eqb_spec a "-") as [->|Hdash].
    + rewrite filter_cons_False; [done|]. by intros [_ ?].
    + rewrite filter_cons_True by done. simpl. by rewrite IH.
Qed.

Lemma truthy_chars (s : string) :
  PyStr.truthy s = true <-> list_ascii_of_string s <> [].
Proof. by destruct s. Qed.

Lemma all_chars_Forall (p : ascii -> bool) (s : string) :
  PyStr.all_chars p s = true
  <-> Forall (fun c => p c = true) (list_ascii_of_string s).
Proof.
  induction s as [|a s IH]; simpl.
  - split; [constructor | done].
  - rewrite andb_true_iff, Forall_cons, IH. done.
Qed.

Lemma eligible_spec (s : string) :
  eligible s = true <-> digits_after_stripping s.
Proof.
  unfold eligible, PyStr.isdigit, digits_after_stripping.
  by rewrite andb_true_iff, truthy_chars, all_chars_Forall, chars_removed.
Qed.

(** *** The statistics loop *)

(** Line 313 parses the eligible values of the column, in order, and
    raises as soon as one of them does not parse. *)
Lemma column_floats_eligible headers data col :
  covers headers data = true -> col ∈ headers ->
  column_floats col data = mapM PyFloat.parse (eligible_values col data).
Proof.
  intros Hc Hcol. induction data as [|row data IH]; [done|].
  destruct (covers_get _ _ row col Hc) as [v Hv]; [by left | done |].
  simpl. unfold getitem. rewrite Hv. simpl.
  rewrite IH by (by eapply covers_cons).
  unfold eligible_values, column. simpl. rewrite Hv. simpl.
  destruct (eligible v) eqn:E.
  - by rewrite filter_cons_True by done.
  - rewrite filter_cons_False; [done|]. congruence.
Qed.

Lemma column_statistics_parsed headers data col xs :
  covers headers data = true -> col ∈ headers ->
  mapM PyFloat.parse (eligible_values col data) = Ok xs ->
  column_statistics col data
  = match xs with
    | [] => Ok None
    | _ :: _ =>
        lo ← PyFloat.min xs; hi ← PyFloat.max xs;
        Ok (Some {| count := length xs;
                    mean := PyFloat.div (PyFloat.sum xs)
                                        (PyFloat.of_nat (length xs));
                    min := lo; max := hi |})
    end.
Proof.
  intros Hc Hcol Hxs. unfold column_statistics.
  rewrite (column_floats_eligible headers), Hxs by done.
  by destruct xs.
Qed.

Lemma column_statistics_failed headers data col e :
  covers headers data = true -> col ∈ headers ->
  mapM PyFloat.parse (eligible_values col data) = Raise e ->
  column_statistics col data = Raise e.
Proof.
  intros Hc Hcol Hxs. unfold column_statistics.
  by rewrite (column_floats_eligible headers), Hxs by done.
Qed.

(** Each header gets the entry of its own column, whatever the others
    hold. *)
Lemma get_numeric_statistics headers data col :
  get col (numeric_statistics headers data)
  = if decide (col ∈ headers)
    then match column_statistics col data with
         | Ok (Some entry) => Some entry
         | _ => None
         end
    else None.
Proof.
  unfold numeric_statistics.
  change (@None column_stats) with (get col (@nil (string * column_stats))).
  generalize (@nil (string * column_stats)) as acc.
  induction headers as [|h hs IH]; intros acc; cbn [foldl].
  - rewrite decide_False by apply not_elem_of_nil. done.
  - rewrite IH. destruct (decide (col = h)) as [->|Hne].
    + rewrite (decide_True (P := h ∈ h :: hs)) by (by left).
      destruct (column_statistics h data) as [[entry|]|];
        rewrite ?get_set_eq; by case_decide.
    + assert (get col
                match column_statistics h data with
                | Ok (Some entry) => set h entry acc
                | _ => acc
                end = get col acc) as ->.
      { destruct (column_statistics h data) as [[?|]|]; [|done..].
        by rewrite get_set_ne. }
      destruct (decide (col ∈ hs)) as [Hin|Hnin].
      * by rewrite decide_True by (by right).
      * rewrite decide_False; [done|].
        intros [?|?]%elem_of_cons; [done | contradiction].
Qed.

Lemma mapM_parse_parsed_values col data xs :
  mapM PyFloat.parse (eligible_values col data) = Ok xs ->
  parsed_values col data = xs /\ length xs = length (eligible_values col data).
Proof.
  unfold parsed_values. generalize (eligible_values col data) as vs.
  intros vs. revert xs. induction vs as [|v vs IH]; intros xs; simpl.
  - by intros [= <-].
  - destruct (PyFloat.parse v) as [x|e]; simpl; [|done].
    destruct (mapM PyFloat.parse vs) as [ys|e]; simpl; [|done].
    intros [= <-]. destruct (IH ys eq_refl) as [Hom Hlen].
    split; [f_equal; exact Hom | simpl; by rewrite Hlen].
Qed.

End StatFacts.

(** ** Response shapes *)

Module ResponseFacts.
Import PyDict PyDictFacts RecordFacts ReportFacts TrendFacts SortFacts ToolFacts.

Lemma error_response_error msg : error_response (Json.error msg).
Proof. by exists msg. Qed.

(** On records that have every header, the analysis returns its result
    document whatever the kind. *)
Lemma analyze_data_response headers data kind range :
  covers headers data = true ->
  exists doc, analyze headers data kind range = Ok doc /\ data_response doc.
Proof.
  intros Hc. unfold analyze.
  destruct (String.eqb kind "summary");
    [|destruct (String.eqb kind "statistics");
      [|destruct (String.eqb kind "trends")]].
  - eexists. split; [reflexivity|]. eexists. by split_and!.
  - eexists. split; [reflexivity|]. eexists. by split_and!.
  - destruct (most_common_values_spec headers data [] Hc) as (mc & -> & _).
    eexists. split; [reflexivity|]. eexists. by split_and!.
  - eexists. split; [reflexivity|]. eexists. by split_and!.
Qed.

Section WithRemote.
Variable str_exn : exn -> string.
Variable values_get : string -> string -> result grid.
Variable values_update : string -> string -> grid -> result update_reply.
Variable values_append :
  string -> string -> grid -> result (option append_updates).
Variable values_clear : string -> string -> result clear_reply.
Variable now : string.

Lemma write_sheet_data_response id range_name data sheet s :
  fst (write_sheet_data str_exn values_update id range_name data sheet s)
  = match values_update id (full_range sheet range_name) data with
    | Ok reply =>
        JDict
          [("success", JBool true);
           ("message",
            JStr ("Updated " +:+ PyStr.of_Z (default 0%Z (updatedCells reply))
                  +:+ " cells in " +:+ full_range sheet range_name));
           ("range", JStr (full_range sheet range_name));
           ("updated_rows", JInt (default 0%Z (updatedRows reply)));
           ("updated_columns", JInt (default 0%Z (updatedColumns reply)))]
    | Raise e => Json.error ("Failed to write sheet data: " +:+ str_exn e)
    end.
Proof. unfold write_sheet_data. simpl. by destruct (values_update _ _ _). Qed.

Lemma append_sheet_data_response id data sheet s :
  fst (append_sheet_data str_exn values_append id data sheet s)
  = match values_append id (sheet +:+ "!A:Z") data with
    | Ok reply =>
        JDict
          [("success", JBool true);
           ("message",
            JStr ("Appended " +:+ PyStr.of_nat (length data)
                  +:+ " rows to " +:+ sheet));
           ("updated_range", JStr (default "" (reply ≫= updatedRange)));
           ("updated_rows", JInt (default 0%Z (reply ≫= appendedRows)));
           ("updated_cells", JInt (default 0%Z (reply ≫= appendedCells)))]
    | Raise e => Json.error ("Failed to append sheet data: " +:+ str_exn e)
    end.
Proof. unfold append_sheet_data. simpl. by destruct (values_append _ _ _). Qed.

Lemma clear_sheet_range_response id range_name sheet s :
  fst (clear_sheet_range str_exn values_clear id range_name sheet s)
  = match values_clear id (full_range sheet range_name) with
    | Ok reply =>
        JDict
          [("success", JBool true);
           ("message",
            JStr ("Cleared range " +:+ full_range sheet range_name));
           ("cleared_range",
            JStr (default (full_range sheet range_name) (clearedRange reply)))]
    | Raise e => Json.error ("Failed to clear sheet range: " +:+ str_exn e)
    end.
Proof. unfold clear_sheet_range. simpl. by destruct (values_clear _ _). Qed.

Lemma read_sheet_data_response id range_name sheet s :
  let doc := fst (read_sheet_data str_exn values_get id range_name sheet s) in
  match values_get id (full_range sheet range_name) with
  | Ok _ => data_response doc
  | Raise e => doc = Json.error ("Failed to read sheet data: " +:+ str_exn e)
  end.
Proof.
  unfold read_sheet_data. simpl.
  destruct (values_get _ _) as [values|e]; simpl; [|done].
  destruct values as [|headers [|row rows]]; simpl;
    eexists; by split_and!.
Qed.

Lemma analyze_sheet_data_response id range_name kind sheet s :
  let doc :=
    fst (analyze_sheet_data str_exn values_get id range_name kind sheet s) in
  match values_get id (full_range sheet range_name) with
  | Ok values =>
      if decide (2 <= length values) then data_response doc
      else doc = Json.error "No structured data available for analysis"
  | Raise e => doc = Json.error ("Failed to read sheet data: " +:+ str_exn e)
  end.
Proof.
  cbv zeta. destruct (values_get _ _) as [values|e] eqn:Hget.
  - case_decide as Hlen.
    + destruct values as [|headers rows]; [simpl in Hlen; lia|].
      rewrite (analyze_sheet_data_structured _ _ id range_name kind sheet s
                 _ headers Hget eq_refl Hlen).
      destruct (analyze_data_response headers
                  (build_data headers (drop 1 (headers :: rows))) kind
                  (sheet +:+ "!" +:+ range_name)) as (doc & -> & Hdoc);
        [apply covers_build_data | done].
    + apply (analyze_sheet_data_unstructured _ _ _ _ _ _ _ _ Hget). lia.
  - by apply analyze_sheet_data_failed.
Qed.

Lemma create_summary_report_response id source_range title sheet s :
  let doc :=
    fst (create_summary_report str_exn values_get values_update now
           id source_range title sheet s) in
  match values_get id (full_range sheet source_range) with
  | Ok values =>
      if decide (2 <= length values) then flagged_response doc
      else doc = Json.error "No structured data available for analysis"
  | Raise e => doc = Json.error ("Failed to read sheet data: " +:+ str_exn e)
  end.
Proof.
  cbv zeta.
  destruct (values_get id (full_range sheet source_range))
    as [values|e] eqn:Hget.
  - case_decide as Hlen.
    + destruct values as [|headers rows]; [simpl in Hlen; lia|].
      rewrite (create_summary_report_structured _ _ _ _ id source_range title
                 sheet s _ headers Hget eq_refl Hlen).
      destruct (values_update _ _ _).
      * left. eexists. by split_and!.
      * right. by eexists.
    + pose proof (analyze_sheet_data_unstructured str_exn values_get id
                    source_range "summary" sheet s _ Hget) as Han.
      unfold create_summary_report.
      destruct (analyze_sheet_data _ _ _ _ _ _ _) as [doc s'].
      simpl in Han. by rewrite Han by lia.
  - pose proof (analyze_sheet_data_failed str_exn values_get id
                  source_range "summary" sheet s _ Hget) as Han.
    unfold create_summary_report.
    destruct (analyze_sheet_data _ _ _ _ _ _ _) as [doc s'].
    simpl in Han. by rewrite Han.
Qed.

End WithRemote.

End ResponseFacts.

(** ** Claims about the record-building step *)

Module RecordClaims.
Import PyDict PyDictFacts RecordFacts.

(** C1 (as amended). For every grid with at least 2 rows whose header row
    has no repeated name, the record-building step produces |grid|-1
    records in sheet-row order, each with exactly |headers| keys, where
    record[i][headers[j]] is grid[i+1][j] when the row has that cell and
    the empty string otherwise, and every value of a record is the cell
    under one of the header positions. *)
Theorem build_records_unique_headers (values : grid) :
  2 <= length values ->
  NoDup (default [] (values !! 0)) ->
  records_match_grid values.
Proof.
  intros Hlen Hnd headers H0. rewrite H0 in Hnd. simpl in Hnd.
  exists (build_data headers (drop 1 values)). split_and!.
  - by apply build_records_Some.
  - unfold build_data. rewrite length_map, length_drop. done.
  - intros i r row (row' & Hrow' & ->)%build_data_lookup Hrow.
    rewrite lookup_drop in Hrow'. simpl in Hrow'.
    assert (row' = row) as -> by congruence.
    split_and!.
    + by rewrite keys_row_dict_NoDup.
    + intros j h Hj. by apply get_row_dict_NoDup.
    + intros v (k & Hk)%elem_of_values; [|apply NoDup_keys_row_dict].
      pose proof (get_Some_keys _ _ _ Hk) as Hin.
      apply elem_of_keys_row_dict, list_elem_of_lookup_1 in Hin as (j & Hj).
      exists j. split; [by eapply lookup_lt_Some|].
      rewrite (get_row_dict_NoDup _ _ _ _ Hnd Hj) in Hk. congruence.
Qed.

Lemma build_records_unique_headers_witness :
  records_match_grid [["name"; "qty"]; ["pen"; "3"; "x"]; ["ink"]].
Proof.
  apply build_records_unique_headers; [simpl; lia|].
  simpl. apply (bool_decide_unpack (NoDup ["name"; "qty"])). vm_compute. exact I.
Defined.

(** C1, the claim as written, fails when a header name repeats: the
    record has one key for the two columns and holds the second cell. *)
Lemma build_records_repeated_header_counterexample :
  2 <= length [["a"; "a"]; ["1"; "2"]] /\
  ~ records_match_grid [["a"; "a"]; ["1"; "2"]].
Proof.
  split; [simpl; lia|]. intros H.
  destruct (H ["a"; "a"] eq_refl) as (data & Hb & _ & Hrec).
  vm_compute in Hb. injection Hb as <-.
  destruct (Hrec 0 _ _ eq_refl eq_refl) as (Hk & _).
  vm_compute in Hk. discriminate.
Qed.



End RecordClaims.

(** ** Claims about the tools on a fetched grid *)

Module ReportClaims.
Import PyDict PyDictFacts RecordFacts ReportFacts ToolFacts.







End ReportClaims.

(** ** Claims about the trends analysis *)

Module TrendClaims.
Import PyDict PyDictFacts RecordFacts TrendFacts SortFacts.

(** C3 (as amended). In the trends analysis, a header column whose values
    are all empty after trimming has no entry in most_common_values: it is
    omitted, not mapped to an empty list, and no entry of the result is an
    empty list. *)
Theorem blank_column_omitted
    (headers : list string) (data : list Record) (range col : string) :
  covers headers data = true ->
  col ∈ headers ->
  trimmed_values col data = [] ->
  exists doc mc,
    analyze headers data "trends" range = Ok doc /\
    most_common_of doc = Ok (encode_most_common mc) /\
    most_common_values headers data [] = Ok mc /\
    get col mc = None /\
    forall c l, get c mc = Some l -> l <> [].
Proof.
  intros Hc Hcol Hblank.
  destruct (most_common_values_spec headers data [] Hc) as (mc & Hmc & Hget).
  unfold analyze. simpl. rewrite Hmc. simpl.
  eexists _, mc. split_and!; [done | done | done | |].
  - rewrite Hget, decide_False; [done|]. by intros [_ ?].
  - intros c l. rewrite Hget. case_decide as Hd; [|done].
    intros [= <-]. destruct Hd as [_ Hne].
    destruct (top3_ranking (trimmed_values c data))
      as (ranking & (_ & Hmem & _) & ->).
    destruct (trimmed_values c data) as [|v vs] eqn:E; [done|].
    assert ((v, occurrences v (v :: vs)) ∈ ranking) as Hin
      by (apply Hmem; split; [by left | done]).
    destruct ranking; [by apply elem_of_nil in Hin | done].
Qed.

Lemma blank_column_omitted_witness :
  exists doc mc,
    analyze ["name"; "note"]
      (build_data ["name"; "note"] [["pen"; " "]; ["ink"]]) "trends" "S!A1:B3"
    = Ok doc /\
    most_common_of doc = Ok (encode_most_common mc) /\
    most_common_values ["name"; "note"]
      (build_data ["name"; "note"] [["pen"; " "]; ["ink"]]) [] = Ok mc /\
    get "note" mc = None /\
    forall c l, get c mc = Some l -> l <> [].
Proof.
  apply (blank_column_omitted ["name"; "note"]
           (build_data ["name"; "note"] [["pen"; " "]; ["ink"]]));
    [reflexivity | | reflexivity].
  apply list_elem_of_further, list_elem_of_here.
Defined.

(** C3, the claim as written, fails: a column of blank cells gets no
    entry at all. *)
Lemma blank_column_counterexample :
  ~ blank_columns_listed ["name"; "note"] [[("name", "pen"); ("note", " ")]].
Proof.
  intros H. destruct (H "note") as (mc & Hmc & Hget).
  - apply list_elem_of_further, list_elem_of_here.
  - reflexivity.
  - vm_compute in Hmc. injection Hmc as <-. discriminate.
Qed.

(** C5. For every column of the trends analysis with a non-blank value,
    the reported most-common values are the first 3 entries of the list of
    its distinct trimmed non-empty values with their frequencies, ordered
    by descending frequency and, among equal frequencies, by first
    encounter in record order; nothing else is reported; and the column
    a, b, a, c, a, b yields (a,3), (b,2), (c,1). *)
Theorem most_common_ranked
    (headers : list string) (data : list Record) (range : string) :
  covers headers data = true ->
  (exists doc mc,
    analyze headers data "trends" range = Ok doc /\
    most_common_of doc = Ok (encode_most_common mc) /\
    most_common_values headers data [] = Ok mc /\
    (forall col, col ∈ headers -> trimmed_values col data <> [] ->
       exists ranking,
         frequency_ranking (trimmed_values col data) ranking /\
         get col mc = Some (take 3 ranking)) /\
    (forall col l, get col mc = Some l ->
       col ∈ headers /\ trimmed_values col data <> [])) /\
  most_common_values ["col"]
    (build_data ["col"] [["a"]; ["b"]; ["a"]; ["c"]; ["a"]; ["b"]]) []
  = Ok [("col", [("a", 3); ("b", 2); ("c", 1)])].
Proof.
  intros Hc. split; [|reflexivity].
  destruct (most_common_values_spec headers data [] Hc) as (mc & Hmc & Hget).
  unfold analyze. simpl. rewrite Hmc. simpl.
  eexists _, mc. split_and!; [done | done | done | |].
  - intros col Hcol Hne.
    destruct (top3_ranking (trimmed_values col data)) as (ranking & Hr & Ht).
    exists ranking. split; [done|].
    rewrite Hget, decide_True by done. by rewrite Ht.
  - intros col l. rewrite Hget. by case_decide.
Qed.

Lemma most_common_ranked_witness :
  exists ranking,
    frequency_ranking
      (trimmed_values "city"
         (build_data ["city"] [[" Oslo"]; ["Rome"]; [""]; ["Oslo "]; ["Rome"];
                               ["Bern"]; ["Kyiv"]]))
      ranking /\
    take 3 ranking = [("Oslo", 2); ("Rome", 2); ("Bern", 1)].
Proof.
  destruct (most_common_ranked ["city"]
              (build_data ["city"] [[" Oslo"]; ["Rome"]; [""]; ["Oslo "];
                                    ["Rome"]; ["Bern"]; ["Kyiv"]])
              "S!A1:A8" eq_refl) as [(doc & mc & _ & _ & Hmc & Hrank & _) _].
  destruct (Hrank "city") as (ranking & Hr & Hget).
  - by left.
  - discriminate.
  - exists ranking. split; [exact Hr|].
    vm_compute in Hmc. injection Hmc as <-.
    assert (Some (take 3 ranking)
            = Some [("Oslo", 2); ("Rome", 2); ("Bern", 1)]) as Heq
      by (rewrite <- Hget; reflexivity).
    by injection Heq.
Defined.

End TrendClaims.

(** ** Claims about the statistics analysis *)

Module StatClaims.
Import PyDict PyDictFacts RecordFacts TrendFacts StatFacts.




(** C4 (as amended). In the statistics analysis, when a column contains a
    value that passes the eligibility test but does not parse as a float,
    that whole column is left out of the statistics; every other column
    has the entry it would have without that column, and the analysis
    still returns its result document, not an error. *)
Theorem unparsed_value_drops_column
    (headers : list string) (data : list Record) (range col v : string)
    (e : exn) :
  covers headers data = true ->
  col ∈ headers ->
  v ∈ eligible_values col data ->
  PyFloat.parse v = Raise e ->
  get col (numeric_statistics headers data) = None /\
  (forall other, other <> col ->
     get other (numeric_statistics headers data)
     = get other
         (numeric_statistics (filter (fun h => h <> col) headers) data)) /\
  exists doc,
    analyze headers data "statistics" range = Ok doc /\
    Json.contains "error" doc = Ok false /\
    Json.subscript "numeric_statistics" doc
    = Ok (Encode.dict Encode.stats (numeric_statistics headers data)).
Proof.
  intros Hc Hcol Hv Hparse. split_and!.
  - rewrite get_numeric_statistics, decide_True by done.
    assert (exists e', mapM PyFloat.parse (eligible_values col data)
                       = Raise e') as [e' He'].
    { revert Hv. generalize (eligible_values col data) as vs.
      induction vs as [|w vs IH]; [by intros ?%elem_of_nil|].
      intros [->|Hin]%elem_of_cons; simpl.
      - rewrite Hparse. by eexists.
      - destruct (PyFloat.parse w); simpl; [|by eexists].
        destruct (IH Hin) as [e' ->]. by eexists. }
    by rewrite (column_statistics_failed headers data col e').
  - intros other Hne. rewrite !get_numeric_statistics.
    apply decide_ext. rewrite list_elem_of_filter. split; [done | by intros []].
  - eexists. split_and!; [reflexivity | done | done].
Qed.

Lemma unparsed_value_drops_column_witness :
  get "a" (numeric_statistics ["a"; "b"]
             (build_data ["a"; "b"] [["1"; "2"]; ["--5"; "3"]])) = None /\
  exists entry,
    get "b" (numeric_statistics ["a"; "b"]
               (build_data ["a"; "b"] [["1"; "2"]; ["--5"; "3"]]))
    = Some entry /\ count entry = 2.
Proof.
  destruct (unparsed_value_drops_column ["a"; "b"]
    (build_data ["a"; "b"] [["1"; "2"]; ["--5"; "3"]]) "S!A1:B3" "a" "--5"
    (ValueError "--5") eq_refl (list_elem_of_here _ _))
    as (Hnone & Hother & _).
  - vm_compute. apply list_elem_of_further, list_elem_of_here.
  - reflexivity.
  - split; [exact Hnone|]. rewrite (Hother "b") by discriminate.
    eexists. split; [by vm_compute | reflexivity].
Defined.

(** C4, the claim as written, fails: the value that does parse is not
    counted either once another eligible value of the column does not. *)
Lemma unparsed_values_skipped_counterexample :
  ~ unparsed_values_skipped ["c"] [[("c", "1")]; [("c", "--5")]].
Proof.
  intros H. destruct (H "c" (list_elem_of_here _ _)) as (entry & Hget & _).
  - by vm_compute.
  - vm_compute in Hget. discriminate.
Qed.

End StatClaims.

(** ** Claims about the tool responses *)

Module ResponseClaims.
Import ResponseFacts.



End ResponseClaims.

(** ** Further properties: the session *)

Module SessionProps.

Section WithRemote.
Variable str_exn : exn -> string.
Variable values_get : string -> string -> result grid.
Variable values_update : string -> string -> grid -> result update_reply.
Variable values_append :
  string -> string -> grid -> result (option append_updates).
Variable values_clear : string -> string -> result clear_reply.
Variable now : string.

Lemma snd_read_sheet_data id range_name sheet s :
  snd (read_sheet_data str_exn values_get id range_name sheet s)
  = set_active_sheet id sheet s.
Proof. reflexivity. Qed.

Lemma snd_write_sheet_data id range_name data sheet s :
  snd (write_sheet_data str_exn values_update id range_name data sheet s)
  = set_active_sheet id sheet s.
Proof. reflexivity. Qed.

Lemma snd_analyze_sheet_data id range_name kind sheet s :
  snd (analyze_sheet_data str_exn values_get id range_name kind sheet s)
  = set_active_sheet id sheet s.
Proof.
  unfold analyze_sheet_data.
  pose proof (snd_read_sheet_data id range_name sheet s) as Hread.
  by destruct (read_sheet_data _ _ _ _ _ _).
Qed.

Lemma snd_create_summary_report id source_range title sheet s :
  snd (create_summary_report str_exn values_get values_update now
         id source_range title sheet s)
  = set_active_sheet id sheet s.
Proof.
  unfold create_summary_report.
  pose proof (snd_analyze_sheet_data id source_range "summary" sheet s) as Han.
  destruct (analyze_sheet_data _ _ _ _ _ _ _) as [doc s']. simpl in Han.
  destruct (Json.contains "error" doc) as [[]|]; [done | | done].
  destruct (compose_report _ _ _ _) as [report|]; [|done].
  pose proof (snd_write_sheet_data id (report_range report) report sheet s')
    as Hw.
  destruct (write_sheet_data _ _ _ _ _ _ _) as [wdoc s'']. simpl in Hw.
  by subst.
Qed.



End WithRemote.

End SessionProps.

(** ** Further properties: records and cell counts *)

Module RecordProps.
Import PyDict PyDictFacts RecordFacts.

Lemma row_dict_ext headers row row' :
  (forall i, i < length headers -> cell row i = cell row' i) ->
  row_dict headers row = row_dict headers row'.
Proof.
  induction headers as [|h headers IH] using rev_ind; intros Hcell; [done|].
  rewrite !row_dict_snoc, IH, Hcell; [done | |].
  - rewrite length_app. simpl. lia.
  - intros i Hi. apply Hcell. rewrite length_app. simpl. lia.
Qed.

Lemma cell_pad_to n row i : i < n -> cell (pad_to n row) i = cell row i.
Proof.
  intros Hi. rewrite !cell_lookup. unfold pad_to.
  rewrite lookup_take_lt by done.
  destruct (decide (i < length row)) as [Hlt|Hge].
  - by rewrite lookup_app_l.
  - rewrite lookup_app_r, (lookup_ge_None_2 row) by lia.
    by rewrite lookup_replicate_2 by lia.
Qed.

(** X3. A data row gives the same record as the row cut to the number of
    headers or filled up to it with empty strings: cells past the last
    header are ignored and missing cells read as empty, so a ragged grid
    and its rectangular completion give the same records. *)
Theorem ragged_rows_as_padded (headers : list string) (rows : grid) :
  build_data headers rows
  = build_data headers (map (pad_to (length headers)) rows) /\
  Forall (fun row => length row = length headers)
         (map (pad_to (length headers)) rows).
Proof.
  split.
  - unfold build_data. rewrite map_map. apply map_ext. intros row.
    apply row_dict_ext. intros i Hi. by rewrite cell_pad_to.
  - apply Forall_fmap, Forall_forall. intros row _. simpl. unfold pad_to.
    rewrite length_take, length_app, length_replicate. lia.
Qed.

Lemma length_keys_remove_dups headers row :
  length (row_dict headers row) = length (remove_dups headers).
Proof.
  rewrite <- (length_map fst). change (map fst ?d) with (keys d).
  apply Permutation_length, NoDup_Permutation.
  - apply NoDup_keys_row_dict.
  - apply NoDup_remove_dups.
  - intros h. by rewrite elem_of_keys_row_dict, elem_of_remove_dups.
Qed.

Lemma length_all_values headers rows :
  length (all_values (build_data headers rows))
  = length rows * length (remove_dups headers).
Proof.
  unfold all_values, build_data. induction rows as [|row rows IH]; [done|].
  simpl. rewrite length_app, IH. unfold values.
  by rewrite length_map, length_keys_remove_dups.
Qed.

Lemma blank_or_not (vs : list string) :
  length (filter (fun v => non_blank v = true) vs)
  + length (filter (fun v => negb (non_blank v) = true) vs)
  = length vs.
Proof.
  induction vs as [|v vs IH]; [done|].
  destruct (non_blank v) eqn:E.
  - rewrite filter_cons_True, filter_cons_False by (by rewrite ?E).
    simpl. lia.
  - rewrite filter_cons_False, filter_cons_True by (by rewrite ?E).
    simpl. lia.
Qed.

Lemma cells_sum (headers : list string) (rows : grid) :
  non_empty_cells (build_data headers rows)
  + empty_cells (build_data headers rows)
  = length rows * length (remove_dups headers).
Proof.
  unfold non_empty_cells, empty_cells.
  by rewrite blank_or_not, length_all_values.
Qed.

(** X4. For the records built from a grid, the non-empty cells counted by
    the summary and the empty cells counted by the trends analysis add up
    to the number of records times the number of distinct header names,
    which is at most the total_cells figure, records times headers. *)
Theorem cells_accounted (headers : list string) (rows : grid) :
  let data := build_data headers rows in
  non_empty_cells data + empty_cells data
  = length data * length (remove_dups headers) /\
  non_empty_cells data + empty_cells data <= length data * length headers.
Proof.
  cbv zeta. rewrite cells_sum.
  unfold build_data. rewrite length_map. split; [done|].
  apply Nat.mul_le_mono_l.
  apply submseteq_length, NoDup_submseteq; [apply NoDup_remove_dups|].
  intros h. by rewrite elem_of_remove_dups.
Qed.

(** X5. When the header row has one name at two positions and there is at
    least one data row, total_cells, records times headers, is larger than
    the number of cells the records hold: the empty and the non-empty
    cells together fall short of it. *)
Theorem total_cells_overstated
    (headers : list string) (rows : grid) (j1 j2 : nat) (name : string) :
  j1 < j2 -> headers !! j1 = Some name -> headers !! j2 = Some name ->
  rows <> [] ->
  let data := build_data headers rows in
  non_empty_cells data + empty_cells data < length data * length headers.
Proof.
  intros Hlt H1 H2 Hrows. cbv zeta.
  rewrite cells_sum.
  unfold build_data. rewrite length_map.
  assert (length (remove_dups headers) < length headers) as Hshort.
  { assert (remove_dups headers ⊆+ headers) as Hsub.
    { apply NoDup_submseteq; [apply NoDup_remove_dups|].
      intros h. by rewrite elem_of_remove_dups. }
    pose proof (submseteq_length _ _ Hsub) as Hle.
    destruct (decide (length (remove_dups headers) = length headers))
      as [Heq|]; [exfalso | lia].
    pose proof (submseteq_length_Permutation _ _ Hsub) as Hperm.
    pose proof (NoDup_remove_dups headers) as Hnd.
    rewrite Hperm in Hnd by lia.
    pose proof (NoDup_lookup _ _ _ _ Hnd H1 H2). lia. }
  destruct rows; [done|]. simpl. nia.
Qed.

Lemma total_cells_overstated_witness :
  let data := build_data ["k"; "v"; "k"] [["1"; ""; "3"]; ["4"]] in
  non_empty_cells data + empty_cells data < length data * 3.
Proof.
  apply (total_cells_overstated ["k"; "v"; "k"] [["1"; ""; "3"]; ["4"]]
           0 2 "k"); [lia | reflexivity | reflexivity | discriminate].
Defined.

(** X16. When the header row has no repeated name, rendering a record
    back in header order, as the report does for its sample rows, gives
    the data row it was built from, cut to the number of headers or filled
    up to it with empty strings. *)
Theorem record_renders_as_row (headers row : list string) :
  NoDup headers ->
  sample_row headers (row_dict headers row) = pad_to (length headers) row.
Proof.
  intros Hnd. apply list_eq. intros i. unfold sample_row.
  rewrite list_lookup_fmap.
  destruct (headers !! i) as [h|] eqn:Hi; simpl.
  - rewrite (get_row_dict_NoDup _ _ _ _ Hnd Hi). simpl.
    apply lookup_lt_Some in Hi as Hlt.
    pose proof (cell_pad_to (length headers) row i Hlt) as Hcell.
    rewrite !cell_lookup in Hcell. rewrite <- Hcell.
    destruct (pad_to (length headers) row !! i) eqn:Hp; [done|].
    apply lookup_ge_None in Hp. unfold pad_to in Hp.
    rewrite length_take, length_app, length_replicate in Hp. lia.
  - symmetry. apply lookup_ge_None. apply lookup_ge_None in Hi.
    unfold pad_to. rewrite length_take. lia.
Qed.

Lemma record_renders_as_row_witness :
  sample_row ["a"; "b"; "c"] (row_dict ["a"; "b"; "c"] ["1"])
  = pad_to 3 ["1"].
Proof.
  apply (record_renders_as_row ["a"; "b"; "c"] ["1"]).
  apply (bool_decide_unpack (NoDup ["a"; "b"; "c"])). vm_compute. exact I.
Defined.

End RecordProps.

(** ** Further properties: the analyses *)

Module AnalysisProps.
Import PyDict PyDictFacts RecordFacts ReportFacts TrendFacts SortFacts
       StatFacts ToolFacts.

(** *** Eligible values and blanks *)

Lemma is_digit_not_space (c : ascii) :
  PyStr.is_digit c = true -> PyStr.is_space c = false.
Proof. destruct c as [[] [] [] [] [] [] [] []]; by vm_compute. Qed.

Lemma lstrip_no_space (s : string) :
  PyStr.all_chars (fun c => negb (PyStr.is_space c)) s = true ->
  PyStr.lstrip s = s.
Proof.
  destruct s as [|c s]; [done|]. simpl.
  intros [Hc _]%andb_true_iff. by destruct (PyStr.is_space c).
Qed.

Lemma rstrip_no_space (s : string) :
  PyStr.all_chars (fun c => negb (PyStr.is_space c)) s = true ->
  PyStr.rstrip s = s.
Proof.
  induction s as [|c s IH]; [done|]. simpl.
  intros [Hc Hs]%andb_true_iff. rewrite IH by done.
  by destruct (PyStr.is_space c).
Qed.

Lemma eligible_no_space (s : string) :
  eligible s = true ->
  PyStr.all_chars (fun c => negb (PyStr.is_space c)) s = true.
Proof.
  intros [_ Hdigits]%eligible_spec. apply all_chars_Forall.
  rewrite Forall_forall in Hdigits. apply Forall_forall. intros c Hc.
  destruct (decide (c = "."%char)) as [->|Hdot]; [done|].
  destruct (decide (c = "-"%char)) as [->|Hdash]; [done|].
  rewrite is_digit_not_space; [done|].
  apply Hdigits. by apply list_elem_of_filter.
Qed.

(** An eligible string has no whitespace and is not empty: trimming
    leaves it as it is. *)
Lemma eligible_strip (s : string) :
  eligible s = true -> PyStr.strip s = s /\ s <> "".
Proof.
  intros He. pose proof (eligible_no_space s He) as Hns. split.
  - unfold PyStr.strip. by rewrite lstrip_no_space, rstrip_no_space.
  - intros ->. done.
Qed.

Lemma eligible_values_trimmed col data v :
  v ∈ eligible_values col data -> v ∈ trimmed_values col data.
Proof.
  unfold eligible_values, trimmed_values.
  intros [He Hin]%list_elem_of_filter.
  destruct (eligible_strip v He) as [Hs Hne].
  apply list_elem_of_filter. split; [done|].
  rewrite <- Hs. by apply list_elem_of_fmap_2.
Qed.

Lemma remove_char_app c (a b : string) :
  PyStr.remove_char c (a +:+ b)
  = PyStr.remove_char c a +:+ PyStr.remove_char c b.
Proof.
  induction a as [|x a IH]; [done|]. simpl.
  destruct (Ascii.eqb x c); [done|]. simpl. by rewrite IH.
Qed.

(** X6. The eligibility test does not see dots and dashes: inserting a
    '.' or a '-' anywhere in a string, any number of times, leaves its
    eligibility as it was, so strings such as 1.2.3 or 1-2 are eligible
    like 123 and 12. *)
Theorem eligibility_ignores_dots_and_dashes (a b : string) :
  eligible (a +:+ String "." b) = eligible (a +:+ b) /\
  eligible (a +:+ String "-" b) = eligible (a +:+ b).
Proof.
  split; unfold eligible;
    by rewrite !remove_char_app; simpl; rewrite ?remove_char_app.
Qed.

(** *** Statistics entries *)

(** X7. For records that have every header, an entry reported by the
    statistics analysis stands for a column all of whose eligible values
    parsed: its count is their number and at least 1, its min and max are
    two of the parsed values, and the max is not below the min. *)
Theorem reported_entry_sound
    (headers : list string) (data : list Record) (col : string)
    (entry : column_stats) :
  covers headers data = true ->
  get col (numeric_statistics headers data) = Some entry ->
  col ∈ headers /\
  exists xs,
    mapM PyFloat.parse (eligible_values col data) = Ok xs /\
    count entry = length (eligible_values col data) /\
    1 <= count entry /\
    min entry ∈ xs /\ max entry ∈ xs /\
    PyFloat.ltb (max entry) (min entry) = false.
Proof.
  intros Hc. rewrite get_numeric_statistics.
  case_decide as Hcol; [|done]. intros Hentry. split; [done|].
  destruct (mapM PyFloat.parse (eligible_values col data)) as [xs|e] eqn:Hxs.
  - rewrite (column_statistics_parsed headers data col xs) in Hentry by done.
    destruct (mapM_parse_parsed_values _ _ _ Hxs) as [_ Hlen].
    destruct xs as [|x xs]; [done|].
    destruct (min_is_minimum (x :: xs)) as (lo & Hlo & Hmin & Hlow); [done|].
    destruct (max_is_maximum (x :: xs)) as (hi & Hhi & Hmax & Hhigh); [done|].
    rewrite Hlo, Hhi in Hentry. simpl in Hentry. injection Hentry as <-.
    exists (x :: xs). simpl in *. split_and!; [done | done | lia | done..|].
    by apply Hlow.
  - by rewrite (column_statistics_failed headers data col e) in Hentry.
Qed.

Lemma reported_entry_sound_witness :
  exists xs,
    mapM PyFloat.parse
      (eligible_values "qty"
         (build_data ["item"; "qty"] [["pen"; "2"]; ["ink"; "-.5"]; ["cap"]]))
    = Ok xs /\ length xs = 2.
Proof.
  destruct (reported_entry_sound ["item"; "qty"]
    (build_data ["item"; "qty"] [["pen"; "2"]; ["ink"; "-.5"]; ["cap"]])
    "qty"
    {| count := 2;
       mean := PyFloat.div
                 (PyFloat.sum [PyFloat.of_Z 2; PyFloat.of_decimal true 5 1])
                 (PyFloat.of_nat 2);
       min := PyFloat.of_decimal true 5 1;
       max := PyFloat.of_Z 2 |} eq_refl)
    as (_ & xs & Hxs & Hcount & _).
  - by vm_compute.
  - exists xs. split; [exact Hxs|].
    destruct (mapM_parse_parsed_values _ _ _ Hxs) as [_ Hlen].
    rewrite Hlen. symmetry. exact Hcount.
Defined.

Lemma reported_entry_nonempty headers data col entry :
  covers headers data = true ->
  get col (numeric_statistics headers data) = Some entry ->
  col ∈ headers /\ exists v, v ∈ eligible_values col data.
Proof.
  intros Hc. rewrite get_numeric_statistics.
  case_decide as Hcol; [|done]. intros Hentry. split; [done|].
  destruct (eligible_values col data) as [|v vs] eqn:E.
  - by rewrite (column_statistics_parsed headers data col []) in Hentry
      by (done || by rewrite E).
  - exists v. by left.
Qed.

(** X8. For records that have every header, every column the statistics
    analysis reports is also reported by the trends analysis: its eligible
    values are among the trimmed non-empty values the frequency table is
    built from. *)
Theorem statistics_column_has_trends
    (headers : list string) (data : list Record) (col : string)
    (entry : column_stats) :
  covers headers data = true ->
  get col (numeric_statistics headers data) = Some entry ->
  (forall v, v ∈ eligible_values col data -> v ∈ trimmed_values col data) /\
  exists mc l,
    most_common_values headers data [] = Ok mc /\
    get col mc = Some l /\ l <> [].
Proof.
  intros Hc Hentry. split; [apply eligible_values_trimmed|].
  destruct (reported_entry_nonempty headers data col entry Hc Hentry)
    as (Hcol & v & Hv).
  apply eligible_values_trimmed in Hv.
  destruct (most_common_values_spec headers data [] Hc) as (mc & Hmc & Hget).
  assert (trimmed_values col data <> []) as Hne
    by (intros Hnil; rewrite Hnil in Hv; by apply elem_of_nil in Hv).
  exists mc, (top3 (trimmed_values col data)). split_and!; [done | |].
  - by rewrite Hget, decide_True.
  - destruct (top3_ranking (trimmed_values col data))
      as (ranking & (_ & Hmem & _) & ->).
    assert ((v, occurrences v (trimmed_values col data)) ∈ ranking) as Hin
      by (by apply Hmem).
    destruct ranking; [by apply elem_of_nil in Hin | done].
Qed.

Lemma statistics_column_has_trends_witness :
  exists mc l,
    most_common_values ["item"; "qty"]
      (build_data ["item"; "qty"] [["pen"; "2"]; ["ink"; "-.5"]; ["cap"]]) []
    = Ok mc /\
    get "qty" mc = Some l /\ l <> [].
Proof.
  destruct (statistics_column_has_trends ["item"; "qty"]
    (build_data ["item"; "qty"] [["pen"; "2"]; ["ink"; "-.5"]; ["cap"]])
    "qty"
    {| count := 2;
       mean := PyFloat.div
                 (PyFloat.sum [PyFloat.of_Z 2; PyFloat.of_decimal true 5 1])
                 (PyFloat.of_nat 2);
       min := PyFloat.of_decimal true 5 1;
       max := PyFloat.of_Z 2 |} eq_refl)
    as (_ & H).
  - by vm_compute.
  - exact H.
Defined.

(** *** Frequency tables *)

Lemma total_count_set (k : string) (n : nat) (table : PyDict.t nat) :
  total_count (set k n table) + default 0 (get k table)
  = total_count table + n.
Proof.
  unfold total_count. induction table as [|[k' n'] table IH]; simpl.
  - lia.
  - destruct (String.eqb k' k); simpl; lia.
Qed.

Lemma total_count_value_counts (vals : list string) :
  total_count (value_counts vals) = length vals.
Proof.
  induction vals as [|v vals IH] using rev_ind; [done|].
  rewrite value_counts_snoc, length_app. simpl.
  pose proof (total_count_set v (default 0 (get v (value_counts vals)) + 1)
                (value_counts vals)). lia.
Qed.

Lemma occurrences_pos v vals : v ∈ vals -> 1 <= occurrences v vals.
Proof.
  intros Hin. unfold occurrences.
  assert (v ∈ filter (fun x => x = v) vals) as Hf
    by (by apply list_elem_of_filter).
  destruct (filter (fun x => x = v) vals); [by apply elem_of_nil in Hf|].
  simpl. lia.
Qed.

Lemma length_trimmed_values col data :
  length (trimmed_values col data) <= length data.
Proof.
  unfold trimmed_values, column.
  etransitivity; [apply length_filter|]. by rewrite !length_map.
Qed.

(** X9. For records that have every header, each list the trends analysis
    reports for a column has between 1 and 3 entries with distinct values;
    every count is the number of records holding that value and at least
    1, no count is larger than the one before it, and the counts together
    do not exceed the number of records. *)
Theorem most_common_shape
    (headers : list string) (data : list Record) (col : string)
    (mc : PyDict.t (list (string * nat))) (l : list (string * nat)) :
  covers headers data = true ->
  most_common_values headers data [] = Ok mc ->
  get col mc = Some l ->
  1 <= length l <= 3 /\
  NoDup (map fst l) /\
  Forall (fun vc => snd vc = occurrences (fst vc) (trimmed_values col data)
                    /\ 1 <= snd vc) l /\
  StronglySorted (fun a b => snd b <= snd a) l /\
  total_count l <= length data.
Proof.
  intros Hc Hmc Hget.
  destruct (most_common_values_spec headers data [] Hc) as (mc' & Hmc' & Hspec).
  assert (mc' = mc) as -> by congruence.
  rewrite Hspec in Hget. case_decide as Hd; [|done].
  destruct Hd as [Hcol Hne]. injection Hget as <-.
  set (vals := trimmed_values col data) in *.
  set (sorted := sorted_desc snd (value_counts vals)).
  pose proof (sorted_desc_Permutation snd (value_counts vals)) as Hperm.
  fold sorted in Hperm.
  change (top3 vals) with (take 3 sorted).
  assert (sorted = take 3 sorted ++ drop 3 sorted) as Hsplit
    by (by rewrite take_drop).
  assert (forall v c, (v, c) ∈ sorted ->
            v ∈ vals /\ c = occurrences v vals) as Hmem.
  { intros v c. rewrite Hperm. intros Hin.
    apply get_elem_of in Hin; [|apply NoDup_keys_value_counts].
    rewrite get_value_counts in Hin. case_decide; [|done].
    by injection Hin as <-. }
  split_and!.
  - destruct vals as [|v vals'] eqn:E; [done|].
    assert ((v, occurrences v (v :: vals')) ∈ sorted) as Hin.
    { rewrite Hperm. apply get_elem_of_items.
      rewrite get_value_counts, decide_True; [done | by left]. }
    destruct sorted; [by apply elem_of_nil in Hin | simpl; lia].
  - rewrite length_take. lia.
  - assert (NoDup (map fst sorted)) as Hnd
      by (rewrite Hperm; apply NoDup_keys_value_counts).
    rewrite Hsplit, map_app in Hnd. by apply NoDup_app in Hnd as [? _].
  - apply Forall_forall. intros [v c] Hin. simpl.
    apply subseteq_take, Hmem in Hin as [Hv ->].
    split; [done | by apply occurrences_pos].
  - assert (StronglySorted (fun a b : string * nat => snd b <= snd a) sorted)
      as HS.
    { eapply StronglySorted_impl_in;
        [|apply (sorted_desc_sorted snd (fun _ _ => True))].
      - intros a b _ _ [Hlt|[Heq _]]; lia.
      - clear. induction (value_counts vals); constructor; [done|].
        by apply Forall_forall. }
    rewrite Hsplit in HS. by apply StronglySorted_app_1_l in HS.
  - transitivity (total_count sorted).
    + rewrite Hsplit at 2. unfold total_count.
      rewrite sum_list_with_app. lia.
    + unfold total_count. rewrite Hperm.
      fold (total_count (value_counts vals)).
      rewrite total_count_value_counts. apply length_trimmed_values.
Qed.

Lemma most_common_shape_witness :
  1 <= length [("Oslo", 2); ("Rome", 2); ("Bern", 1)] <= 3 /\
  total_count [("Oslo", 2); ("Rome", 2); ("Bern", 1)] <= 7.
Proof.
  destruct (most_common_shape ["city"]
    (build_data ["city"] [[" Oslo"]; ["Rome"]; [""]; ["Oslo "]; ["Rome"];
                          ["Bern"]; ["Kyiv"]])
    "city" [("city", [("Oslo", 2); ("Rome", 2); ("Bern", 1)])]
    [("Oslo", 2); ("Rome", 2); ("Bern", 1)]
    eq_refl eq_refl eq_refl) as (Hlen & _ & _ & _ & Htotal).
  split; [exact Hlen | exact Htotal].
Defined.

End AnalysisProps.

(** ** Further properties: the tools on a fetched grid *)

Module ToolProps.
Import PyDict PyDictFacts RecordFacts ReportFacts TrendFacts SortFacts
       ToolFacts.

Lemma analyze_range headers data kind range :
  covers headers data = true ->
  exists doc,
    analyze headers data kind range = Ok doc /\
    Json.subscript "range" doc = Ok (JStr range).
Proof.
  intros Hc. unfold analyze.
  destruct (String.eqb kind "summary");
    [|destruct (String.eqb kind "statistics");
      [|destruct (String.eqb kind "trends")]].
  - by eexists.
  - by eexists.
  - destruct (most_common_values_spec headers data [] Hc) as (mc & -> & _).
    by eexists.
  - by eexists.
Qed.

Lemma String_cons_ne (c : ascii) (s : string) : String c s <> s.
Proof.
  revert c. induction s as [|c' s IH]; intros c; [done|].
  intros [= _ H]. by apply IH in H.
Qed.

Lemma Forall_imap {A B} (P : B -> Prop) (f : nat -> A -> B) (l : list A) :
  (forall i x, P (f i x)) -> Forall P (imap f l).
Proof.
  revert f. induction l as [|x l IH]; intros f Hf; simpl; [constructor|].
  constructor; [apply Hf|]. apply IH. intros i y. apply Hf.
Qed.

Section WithRemote.
Variable str_exn : exn -> string.
Variable values_get : string -> string -> result grid.
Variable now : string.




End WithRemote.




End ToolProps.

(** ** Further properties: the interactive loop *)

Module InteractiveProps.
Import Interactive.

Section WithAgent.
Variable str_exn : exn -> string.
Variable run_sync : nat -> string -> outcome.

(** X13. Every text the interactive loop passes to the agent is the
    trimmed text of an input line, is not empty and is not one of the
    words quit, exit, q in any letter case: blank lines and the leaving
    words never reach the agent. *)
Theorem queries_are_trimmed_lines
    (calls : nat) (inputs : list stdin) (q : string) :
  q ∈ queries (fst (interactive_loop str_exn run_sync calls inputs)) ->
  exists text,
    Line text ∈ inputs /\ q = PyStr.strip text /\
    q <> "" /\ is_quit q = false.
Proof.
  revert calls. induction inputs as [|[text|] inputs IH]; intros calls; simpl.
  - by intros ?%elem_of_nil.
  - destruct (is_quit (PyStr.strip text)) eqn:Hquit;
      [by intros ?%elem_of_nil|].
    destruct (PyStr.truthy (PyStr.strip text)) eqn:Hblank; simpl.
    + assert (q = PyStr.strip text \/
              q ∈ queries (fst (interactive_loop str_exn run_sync (S calls)
                                  inputs)) ->
              exists text0, Line text0 ∈ Line text :: inputs /\
                q = PyStr.strip text0 /\ q <> "" /\ is_quit q = false)
        as Hcase.
      { intros [->|Hin].
        - exists text. split_and!; [by left | done | | done].
          intros Heq. by rewrite Heq in Hblank.
        - destruct (IH _ Hin) as (text0 & ? & ?). exists text0.
          split; [by right | done]. }
      destruct (run_sync calls (PyStr.strip text)) as [out|exc|].
      * destruct (interactive_loop str_exn run_sync (S calls) inputs)
          as [events fin]. simpl in *.
        intros [?|Hin]%elem_of_cons; apply Hcase; [by left | by right].
      * destruct (interactive_loop str_exn run_sync (S calls) inputs)
          as [events fin]. simpl in *.
        intros [?|Hin]%elem_of_cons; apply Hcase; [by left | by right].
      * simpl. intros [?|Hin]%elem_of_cons; [apply Hcase; by left|].
        by apply elem_of_nil in Hin.
    + intros Hin. destruct (IH _ Hin) as (text0 & ? & ?). exists text0.
      split; [by right | done].
  - by intros ?%elem_of_nil.
Qed.

(** X14. Ctrl-C at the prompt, or a line that reads quit, exit or q once
    trimmed and put in lower case, makes the loop leave: whatever input
    follows is not read and changes nothing, and the last thing shown is
    the goodbye line. *)
Theorem leaving_input_ends_session
    (calls : nat) (before after : list stdin) (i : stdin) :
  stops i = true ->
  interactive_loop str_exn run_sync calls (before ++ i :: after)
  = interactive_loop str_exn run_sync calls (before ++ [i]) /\
  snd (interactive_loop str_exn run_sync calls (before ++ i :: after))
  = Exited /\
  last (fst (interactive_loop str_exn run_sync calls (before ++ i :: after)))
  = Some Goodbye.
Proof.
  intros Hstop. revert calls.
  induction before as [|[text|] before IH]; intros calls; simpl.
  - destruct i as [text|]; simpl in *; [by rewrite Hstop | done].
  - destruct (is_quit (PyStr.strip text)); [done|].
    destruct (negb (PyStr.truthy (PyStr.strip text))); [apply IH|].
    destruct (run_sync calls (PyStr.strip text)) as [out|exc|]; [| |done].
    + destruct (IH (S calls)) as (-> & Hend & Hlast).
      destruct (interactive_loop str_exn run_sync (S calls) (before ++ [i]))
        as [events fin].
      simpl in *. split_and!; [done..|].
      by destruct events.
    + destruct (IH (S calls)) as (-> & Hend & Hlast).
      destruct (interactive_loop str_exn run_sync (S calls) (before ++ [i]))
        as [events fin].
      simpl in *. split_and!; [done..|].
      by destruct events.
  - done.
Qed.


End WithAgent.

Lemma queries_are_trimmed_lines_witness :
  exists text,
    Line text ∈ [Line "  "; Line " list my sheets "; Line "Q"; Line "more"] /\
    "list my sheets" = PyStr.strip text /\
    "list my sheets" <> "" /\ is_quit "list my sheets" = false.
Proof.
  apply (queries_are_trimmed_lines (fun _ => "") (fun _ _ => Final "ok") 0
           [Line "  "; Line " list my sheets "; Line "Q"; Line "more"]).
  vm_compute. apply list_elem_of_here.
Defined.

Lemma leaving_input_ends_session_witness :
  snd (interactive_loop (fun _ => "") (fun _ _ => Failed (RemoteError ""))
         0 ([Line "hello"] ++ Line "  EXIT " :: [Line "more"; CtrlC]))
  = Exited.
Proof.
  destruct (leaving_input_ends_session (fun _ => "")
              (fun _ _ => Failed (RemoteError "")) 0
              [Line "hello"] [Line "more"; CtrlC] (Line "  EXIT ") eq_refl)
    as (_ & H & _).
  exact H.
Defined.


End InteractiveProps.
